(** * Refresh-token sessions of the Affordly backend

    A shallow embedding of the session handlers of the authentication
    controller (signUp, signIn, refreshAccessToken, logout,
    logoutAllDevices, revokeSession), of the admin controller's
    toggleUserStatus, of the RefreshToken model and of utils/jwt.ts,
    followed by the properties of the session life cycle.

    Conventions of the embedding.
    - A [Date] is its number of milliseconds since the epoch, an integer.
    - A handler is a function from the request and the database to the
      new database and the JSON response.  The instant [now] read by
      [new Date()] / [Date.now()] and the string drawn by
      [generateRefreshToken] are arguments of the handler; all clock reads
      made while one request is handled return the same instant.
    - A collection is the list of its documents in insertion order;
      [find] is [filter], [findOne] is the first match, [updateMany] is a
      map over the matching documents.
    - An exception thrown by the store (unique index, schema validation)
      lands in the handler's [catch] and yields status 500; what was
      written before the exception stays written. *)

From stdpp Require Import base strings list gmap sorting.
From Stdlib Require Import ZArith Lia Ascii.

Local Open Scope Z_scope.

(** ** Data model (models/RefreshToken.ts) *)

Abbreviation Instant := Z.
Abbreviation ObjectId := nat.

Record DeviceInfo := {
  deviceId : string;
  deviceName : string;
  platform : string;
  appVersion : option string;
  osVersion : option string;
}.

Record SecurityInfo := {
  ipAddress : option string;
  userAgent : option string;
  lastUsedAt : Instant;
  usageCount : Z;
  suspiciousActivity : bool;
}.

Record RefreshToken := {
  _id : ObjectId;
  userId : ObjectId;
  token : string;
  expiresAt : Instant;
  createdAt : Instant;
  revokedAt : option Instant;
  isRevoked : bool;
  deviceInfo : DeviceInfo;
  securityInfo : SecurityInfo;
  replacedByToken : option string;
}.

(** Modelled from the spec: the User model (models/User) is missing from
    the sources.  The user directory gives the [isActive] flag, the [role]
    field and [comparePassword], and is searched by id and by email; these
    are the fields the handlers read. *)
Record User := {
  user_id : ObjectId;
  email : string;
  name : string;
  role : string;
  isActive : bool;
  comparePassword : string → bool;
}.

Record Db := {
  users : list User;
  refreshTokens : list RefreshToken;
}.

(** ** utils/jwt.ts *)

Record TokenPayload := {
  payload_userId : ObjectId;
  payload_email : string;
}.

(** [jwt.sign] is kept abstract: an access token is the payload it signs. *)
Definition generateAccessToken (payload : TokenPayload) : TokenPayload := payload.

Definition msPerDay : Z := 24 * 60 * 60 * 1000.

(** [expiryDate.setDate(expiryDate.getDate() + 30)]: thirty calendar days
    after the instant of the call (days of 24 hours: the server's zone has
    no clock change in between). *)
Definition getRefreshTokenExpiryDate (now : Instant) : Instant :=
  now + 30 * msPerDay.

(** ** Requests and responses *)

Record Request := {
  validationErrors : bool;          (* !validationResult(req).isEmpty() *)
  body_email : string;
  body_password : string;
  body_name : string;
  body_refreshToken : option string;
  body_deviceId : option string;
  body_deviceName : option string;
  body_platform : option string;
  body_appVersion : option string;
  body_osVersion : option string;
  header_x_device_id : option string;
  header_x_device_name : option string;
  header_x_platform : option string;
  header_x_app_version : option string;
  header_x_os_version : option string;
  header_x_forwarded_for : option string;
  header_user_agent : option string;
  ip : option string;
  req_userId : option ObjectId;     (* AuthRequest.userId, set by the middleware *)
  params_sessionId : ObjectId;
  params_userId : ObjectId;
}.

Record UserView := {
  view_id : ObjectId;
  view_email : string;
  view_name : string;
  view_role : string;
}.

Inductive Body :=
  | Errors
  | Error (error : string)
  | Message (message : string)
  | Authenticated (message : string) (user : UserView)
      (accessToken : TokenPayload) (refreshToken : string) (warning : option string)
  | Refreshed (accessToken : TokenPayload) (refreshToken : string)
  | RevokedCount (message : string) (revokedCount : nat)
  | StatusUpdated (message : string) (id : ObjectId) (user_email : string) (active : bool).

Record Response := {
  status : nat;
  json : Body;
}.

Definition respond (code : nat) (b : Body) : Response := {| status := code; json := b |}.

(** The error kinds of the refresh flow, as the handler answers them. *)
Definition InvalidRefreshToken : Response := respond 401 (Error "Invalid refresh token").
Definition RefreshTokenExpired : Response := respond 401 (Error "Refresh token expired").
Definition UserInactive : Response := respond 401 (Error "User not found or inactive").

(** ** JavaScript truthiness of optional strings *)

Definition truthy (v : option string) : bool :=
  match v with
  | Some s => negb (String.eqb s "")
  | None => false
  end.

(** [a || b] *)
Definition js_or (a b : option string) : option string :=
  if truthy a then a else b.

(** [String(a || 'default')] *)
Definition js_or_default (a : option string) (d : string) : string :=
  match a with
  | Some s => if String.eqb s "" then d else s
  | None => d
  end.

(** [v ? String(v) : undefined] *)
Definition js_opt (v : option string) : option string :=
  if truthy v then v else None.

(** ** The store: queries and writes on the RefreshToken collection *)

Definition findOne {A} (P : A → Prop) `{∀ x, Decision (P x)} (coll : list A) : option A :=
  snd <$> list_find P coll.

Definition updateMany {A} (P : A → Prop) `{∀ x, Decision (P x)} (f : A → A)
    (coll : list A) : list A :=
  (λ d, if decide (P d) then f d else d) <$> coll.

(** [modifiedCount] of an [updateMany] whose update changes every match. *)
Definition modifiedCount {A} (P : A → Prop) `{∀ x, Decision (P x)} (coll : list A) : nat :=
  length (filter P coll).

(** [$set: { isRevoked: true, revokedAt: at }] *)
Definition set_revoked (at_ : Instant) (t : RefreshToken) : RefreshToken :=
  {| _id := _id t; userId := userId t; token := token t; expiresAt := expiresAt t;
     createdAt := createdAt t; revokedAt := Some at_; isRevoked := true;
     deviceInfo := deviceInfo t; securityInfo := securityInfo t;
     replacedByToken := replacedByToken t |}.

(** [doc.save()] of a document read from the collection: the stored
    document with the same [_id] takes the values of [doc]. *)
Definition save (doc : RefreshToken) (coll : list RefreshToken) : list RefreshToken :=
  (λ d, if decide (_id d = _id doc) then doc else d) <$> coll.

Definition platforms : list string := ["ios"; "android"; "web"].

(** Schema validation of a new document: the required strings are not
    empty and [platform] is in the enum. *)
Definition validates (doc : RefreshToken) : bool :=
  bool_decide (token doc ≠ "" ∧ deviceId (deviceInfo doc) ≠ ""
               ∧ deviceName (deviceInfo doc) ≠ ""
               ∧ platform (deviceInfo doc) ∈ platforms).

Definition freshId (coll : list RefreshToken) : ObjectId :=
  S (foldr Nat.max 0%nat (_id <$> coll)).

(** [new RefreshToken({ userId, token, expiresAt, deviceInfo, securityInfo })]:
    the schema defaults fill the other fields; [oid] is the document's
    [_id] and [now] its [createdAt].  Mongoose stamps [createdAt] at
    [save()], a later reading of the clock than the one the handler
    computed [expiresAt] from; a request is given one reading [now], so
    timestamps are those of the request's instant and the distance
    between two stored timestamps is not meaningful to the millisecond. *)
Definition newRefreshToken (oid : ObjectId) (now : Instant)
    (uid : ObjectId) (tok : string) (exp : Instant)
    (dev : DeviceInfo) (sec : SecurityInfo) : RefreshToken :=
  {| _id := oid; userId := uid; token := tok; expiresAt := exp;
     createdAt := now; revokedAt := None; isRevoked := false;
     deviceInfo := dev; securityInfo := sec; replacedByToken := None |}.

(** [new RefreshToken({...})] followed by [save()]: the store gives the
    document an unused [_id]; [None] when the store throws (the document
    fails validation, or its token is already in the unique index). *)
Definition create (now : Instant) (uid : ObjectId) (tok : string) (exp : Instant)
    (dev : DeviceInfo) (sec : SecurityInfo) (coll : list RefreshToken)
    : option (list RefreshToken) :=
  let doc := newRefreshToken (freshId coll) now uid tok exp dev sec in
  if validates doc && bool_decide (tok ∉ token <$> coll)
  then Some (coll ++ [doc])
  else None.

(** ** Helpers of the authentication controller *)

Definition getDeviceInfo (req : Request) : DeviceInfo :=
  {| deviceId := js_or_default (js_or (body_deviceId req) (header_x_device_id req)) "unknown";
     deviceName :=
       js_or_default (js_or (body_deviceName req) (header_x_device_name req)) "Unknown Device";
     platform := js_or_default (js_or (body_platform req) (header_x_platform req)) "web";
     appVersion := js_opt (js_or (body_appVersion req) (header_x_app_version req));
     osVersion := js_opt (js_or (body_osVersion req) (header_x_os_version req)) |}.

Definition getSecurityInfo (now : Instant) (req : Request) : SecurityInfo :=
  {| ipAddress := js_or (ip req) (header_x_forwarded_for req);
     userAgent := header_user_agent req;
     lastUsedAt := now;
     usageCount := 1;
     suspiciousActivity := false |}.

(** [securityInfo.suspiciousActivity = b] *)
Definition set_suspiciousActivity (b : bool) (s : SecurityInfo) : SecurityInfo :=
  {| ipAddress := ipAddress s; userAgent := userAgent s; lastUsedAt := lastUsedAt s;
     usageCount := usageCount s; suspiciousActivity := b |}.

(** [{ userId, isRevoked: false, expiresAt: { $gt: now } }] *)
Definition activeOf (now : Instant) (uid : ObjectId) (t : RefreshToken) : Prop :=
  userId t = uid ∧ isRevoked t = false ∧ now < expiresAt t.

(** [{ userId, createdAt: { $gt: now - 60 * 60 * 1000 } }] *)
Definition recentOf (now : Instant) (uid : ObjectId) (t : RefreshToken) : Prop :=
  userId t = uid ∧ now - 60 * 60 * 1000 < createdAt t.

#[global] Instance activeOf_dec now uid t : Decision (activeOf now uid t).
Proof. unfold activeOf. apply _. Defined.

#[global] Instance recentOf_dec now uid t : Decision (recentOf now uid t).
Proof. unfold recentOf. apply _. Defined.

Definition activeTokens (now : Instant) (uid : ObjectId) (coll : list RefreshToken)
    : list RefreshToken :=
  filter (activeOf now uid) coll.

Definition recentTokens (now : Instant) (uid : ObjectId) (coll : list RefreshToken)
    : list RefreshToken :=
  filter (recentOf now uid) coll.

(** [new Set(recentTokens.map((t) => t.deviceInfo.deviceId))] *)
Definition uniqueDevices (now : Instant) (uid : ObjectId) (coll : list RefreshToken)
    : gset string :=
  list_to_set ((λ t, deviceId (deviceInfo t)) <$> recentTokens now uid coll).

Definition detectSuspiciousActivity (now : Instant) (uid : ObjectId)
    (_deviceInfo : DeviceInfo) (coll : list RefreshToken) : bool :=
  if bool_decide (5 < length (activeTokens now uid coll))%nat then true
  else if bool_decide (3 < size (uniqueDevices now uid coll))%nat then true
  else false.

(** [{ userId, 'deviceInfo.deviceId': deviceId, isRevoked: false }] *)
Definition onDevice (uid : ObjectId) (dev : string) (t : RefreshToken) : Prop :=
  userId t = uid ∧ deviceId (deviceInfo t) = dev ∧ isRevoked t = false.

(** [{ userId, isRevoked: false }] *)
Definition unrevokedOf (uid : ObjectId) (t : RefreshToken) : Prop :=
  userId t = uid ∧ isRevoked t = false.

(** [{ token: refreshToken, isRevoked: false }] *)
Definition unrevokedWithToken (secret : option string) (t : RefreshToken) : Prop :=
  Some (token t) = secret ∧ isRevoked t = false.

(** [{ token: refreshToken }] *)
Definition withToken (secret : option string) (t : RefreshToken) : Prop :=
  Some (token t) = secret.

(** [{ _id: sessionId, userId }] *)
Definition ownedSession (sid uid : ObjectId) (t : RefreshToken) : Prop :=
  _id t = sid ∧ userId t = uid.

(** [User.findById(id)] and [User.findOne({ email })] *)
Definition withId (uid : ObjectId) (u : User) : Prop := user_id u = uid.
Definition withEmail (e : string) (u : User) : Prop := email u = e.

#[global] Instance unrevokedWithToken_dec s t : Decision (unrevokedWithToken s t).
Proof. unfold unrevokedWithToken. apply _. Defined.

#[global] Instance withToken_dec s t : Decision (withToken s t).
Proof. unfold withToken. apply _. Defined.

#[global] Instance ownedSession_dec sid uid t : Decision (ownedSession sid uid t).
Proof. unfold ownedSession. apply _. Defined.

#[global] Instance withId_dec uid u : Decision (withId uid u).
Proof. unfold withId. apply _. Defined.

#[global] Instance withEmail_dec e u : Decision (withEmail e u).
Proof. unfold withEmail. apply _. Defined.

#[global] Instance onDevice_dec uid dev t : Decision (onDevice uid dev t).
Proof. unfold onDevice. apply _. Defined.

#[global] Instance unrevokedOf_dec uid t : Decision (unrevokedOf uid t).
Proof. unfold unrevokedOf. apply _. Defined.

Definition view (u : User) : UserView :=
  {| view_id := user_id u; view_email := email u; view_name := name u; view_role := role u |}.

Definition with_tokens (db : Db) (coll : list RefreshToken) : Db :=
  {| users := users db; refreshTokens := coll |}.

(** ** signIn *)

Definition signIn (now : Instant) (rnd : string) (req : Request) (db : Db) : Db * Response :=
  if validationErrors req then (db, respond 400 Errors) else
  match findOne (withEmail (body_email req)) (users db) with
  | None => (db, respond 401 (Error "Invalid credentials - User Not Found"))
  | Some user =>
    if negb (isActive user) then (db, respond 403 (Error "Account is deactivated")) else
    if negb (comparePassword user (body_password req))
    then (db, respond 401 (Error "Invalid credentials - Password is Wrong")) else
    let deviceInfo := getDeviceInfo req in
    let securityInfo := getSecurityInfo now req in
    let isSuspicious :=
      detectSuspiciousActivity now (user_id user) deviceInfo (refreshTokens db) in
    let securityInfo := set_suspiciousActivity isSuspicious securityInfo in
    (* Revoke old token from same device if exists *)
    let coll :=
      updateMany (onDevice (user_id user) (deviceId deviceInfo)) (set_revoked now)
        (refreshTokens db) in
    let accessToken :=
      generateAccessToken {| payload_userId := user_id user; payload_email := email user |} in
    let refreshTokenString := rnd in
    match create now (user_id user) refreshTokenString (getRefreshTokenExpiryDate now)
            deviceInfo securityInfo coll with
    | None => (with_tokens db coll, respond 500 (Error "Failed to sign in"))
    | Some coll' =>
      (with_tokens db coll',
       respond 200
         (Authenticated "Signed in successfully" (view user) accessToken refreshTokenString
            (if isSuspicious then Some "Suspicious activity detected" else None)))
    end
  end.

(** ** refreshAccessToken *)

(** Lines "Update security info": lastUsedAt, usageCount, ipAddress. *)
Definition touch (now : Instant) (req : Request) (t : RefreshToken) : RefreshToken :=
  {| _id := _id t; userId := userId t; token := token t; expiresAt := expiresAt t;
     createdAt := createdAt t; revokedAt := revokedAt t; isRevoked := isRevoked t;
     deviceInfo := deviceInfo t;
     securityInfo :=
       {| ipAddress := js_or (ip req) (header_x_forwarded_for req);
          userAgent := userAgent (securityInfo t);
          lastUsedAt := now;
          usageCount := usageCount (securityInfo t) + 1;
          suspiciousActivity := suspiciousActivity (securityInfo t) |};
     replacedByToken := replacedByToken t |}.

(** Lines "Mark old token as replaced". *)
Definition mark_replaced (now : Instant) (newSecret : string) (t : RefreshToken)
    : RefreshToken :=
  {| _id := _id t; userId := userId t; token := token t; expiresAt := expiresAt t;
     createdAt := createdAt t; revokedAt := Some now; isRevoked := true;
     deviceInfo := deviceInfo t; securityInfo := securityInfo t;
     replacedByToken := Some newSecret |}.

(** The securityInfo of the successor. *)
Definition carried (now : Instant) (t : RefreshToken) : SecurityInfo :=
  {| ipAddress := ipAddress (securityInfo t);
     userAgent := userAgent (securityInfo t);
     lastUsedAt := now;
     usageCount := 0;
     suspiciousActivity := suspiciousActivity (securityInfo t) |}.

Definition refreshAccessToken (now : Instant) (rnd : string) (req : Request) (db : Db)
    : Db * Response :=
  if negb (truthy (body_refreshToken req))
  then (db, respond 400 (Error "Refresh token is required")) else
  match findOne (unrevokedWithToken (body_refreshToken req))
          (refreshTokens db) with
  | None => (db, InvalidRefreshToken)
  | Some storedToken =>
    if bool_decide (expiresAt storedToken < now) then (db, RefreshTokenExpired) else
    match findOne (withId (userId storedToken)) (users db) with
    | None => (db, UserInactive)
    | Some user =>
      if negb (isActive user) then (db, UserInactive) else
      let storedToken := touch now req storedToken in
      let newRefreshTokenString := rnd in
      let storedToken := mark_replaced now newRefreshTokenString storedToken in
      let coll := save storedToken (refreshTokens db) in
      match create now (userId storedToken) newRefreshTokenString
              (getRefreshTokenExpiryDate now) (deviceInfo storedToken)
              (carried now storedToken) coll with
      | None => (with_tokens db coll, respond 500 (Error "Failed to refresh token"))
      | Some coll' =>
        let accessToken :=
          generateAccessToken
            {| payload_userId := user_id user; payload_email := email user |} in
        (with_tokens db coll', respond 200 (Refreshed accessToken newRefreshTokenString))
      end
    end
  end.

(** ** logout, logoutAllDevices, revokeSession *)

Definition logout (now : Instant) (req : Request) (db : Db) : Db * Response :=
  if negb (truthy (body_refreshToken req))
  then (db, respond 400 (Error "Refresh token is required")) else
  let coll :=
    match findOne (withToken (body_refreshToken req)) (refreshTokens db) with
    | Some storedToken => save (set_revoked now storedToken) (refreshTokens db)
    | None => refreshTokens db
    end in
  (with_tokens db coll, respond 200 (Message "Logged out successfully")).

Definition logoutAllDevices (now : Instant) (req : Request) (db : Db) : Db * Response :=
  match req_userId req with
  | None => (db, respond 401 (Error "Unauthorized"))
  | Some uid =>
    (with_tokens db (updateMany (unrevokedOf uid) (set_revoked now) (refreshTokens db)),
     respond 200
       (RevokedCount "Logged out from all devices successfully"
          (modifiedCount (unrevokedOf uid) (refreshTokens db))))
  end.

Definition revokeSession (now : Instant) (req : Request) (db : Db) : Db * Response :=
  match req_userId req with
  | None => (db, respond 401 (Error "Unauthorized"))
  | Some uid =>
    match findOne (ownedSession (params_sessionId req) uid) (refreshTokens db) with
    | None => (db, respond 404 (Error "Session not found"))
    | Some session =>
      (with_tokens db (save (set_revoked now session) (refreshTokens db)),
       respond 200 (Message "Session revoked successfully"))
    end
  end.

(** ** toggleUserStatus (admin controller) *)

(** [user.isActive = !user.isActive] *)
Definition toggled (u : User) : User :=
  {| user_id := user_id u; email := email u; name := name u; role := role u;
     isActive := negb (isActive u); comparePassword := comparePassword u |}.

Definition save_user (doc : User) (coll : list User) : list User :=
  (λ d, if decide (user_id d = user_id doc) then doc else d) <$> coll.

Definition toggleUserStatus (now : Instant) (req : Request) (db : Db) : Db * Response :=
  let userId := params_userId req in
  match findOne (withId userId) (users db) with
  | None => (db, respond 404 (Error "User not found"))
  | Some user =>
    let user := toggled user in
    let us := save_user user (users db) in
    let coll :=
      if negb (isActive user)
      then updateMany (unrevokedOf userId) (set_revoked now) (refreshTokens db)
      else refreshTokens db in
    ({| users := us; refreshTokens := coll |},
     respond 200
       (StatusUpdated "User status updated successfully"
          (user_id user) (email user) (isActive user)))
  end.

(** ** signUp *)

Section SignUp.

(** [new User({ email, password, name })] once saved under the given
    [_id]: the User model (schema defaults, password hashing) is not
    among the sources. *)
Variable newUser : ObjectId → string → string → string → User.

Definition freshUserId (coll : list User) : ObjectId :=
  S (foldr Nat.max 0%nat (user_id <$> coll)).

(** The Profile document saved next to the user is not modelled. *)
Definition signUp (now : Instant) (rnd : string) (req : Request) (db : Db) : Db * Response :=
  if validationErrors req then (db, respond 400 Errors) else
  match findOne (withEmail (body_email req)) (users db) with
  | Some _ => (db, respond 400 (Error "User already exists"))
  | None =>
    let user :=
      newUser (freshUserId (users db)) (body_email req) (body_password req) (body_name req) in
    let us := users db ++ [user] in
    let deviceInfo := getDeviceInfo req in
    let securityInfo := getSecurityInfo now req in
    let accessToken :=
      generateAccessToken {| payload_userId := user_id user; payload_email := email user |} in
    let refreshTokenString := rnd in
    match create now (user_id user) refreshTokenString (getRefreshTokenExpiryDate now)
            deviceInfo securityInfo (refreshTokens db) with
    | None =>
      ({| users := us; refreshTokens := refreshTokens db |},
       respond 500 (Error "Failed to create user"))
    | Some coll' =>
      ({| users := us; refreshTokens := coll' |},
       respond 201
         (Authenticated "User created successfully" (view user) accessToken
            refreshTokenString None))
    end
  end.

End SignUp.

(** ** refreshAccessToken, one store operation at a time

    The handler is an async function: between two [await]s it runs
    without interruption, and at each [await] (one store operation) other
    requests may run.  [refresh_step] performs the store operation the
    handler is waiting at together with the synchronous code that follows
    it. *)

Inductive Refreshing :=
  | AtFindToken                                        (* RefreshToken.findOne *)
  | AtFindUser (storedToken : RefreshToken)            (* User.findById *)
  | AtSaveOld (user : User) (storedToken : RefreshToken)   (* storedToken.save() *)
  | AtSaveNew (user : User) (storedToken : RefreshToken)   (* newRefreshToken.save() *)
  | Responded (res : Response).

Definition refresh_step (now : Instant) (rnd : string) (req : Request)
    (db : Db) (pc : Refreshing) : Db * Refreshing :=
  match pc with
  | AtFindToken =>
    if negb (truthy (body_refreshToken req))
    then (db, Responded (respond 400 (Error "Refresh token is required"))) else
    match findOne (unrevokedWithToken (body_refreshToken req))
            (refreshTokens db) with
    | None => (db, Responded InvalidRefreshToken)
    | Some storedToken =>
      if bool_decide (expiresAt storedToken < now) then (db, Responded RefreshTokenExpired)
      else (db, AtFindUser storedToken)
    end
  | AtFindUser storedToken =>
    match findOne (withId (userId storedToken)) (users db) with
    | None => (db, Responded UserInactive)
    | Some user =>
      if negb (isActive user) then (db, Responded UserInactive)
      else (db, AtSaveOld user (mark_replaced now rnd (touch now req storedToken)))
    end
  | AtSaveOld user storedToken =>
    (with_tokens db (save storedToken (refreshTokens db)), AtSaveNew user storedToken)
  | AtSaveNew user storedToken =>
    match create now (userId storedToken) rnd (getRefreshTokenExpiryDate now)
            (deviceInfo storedToken) (carried now storedToken) (refreshTokens db) with
    | None => (db, Responded (respond 500 (Error "Failed to refresh token")))
    | Some coll' =>
      (with_tokens db coll',
       Responded
         (respond 200
            (Refreshed
               (generateAccessToken
                  {| payload_userId := user_id user; payload_email := email user |})
               rnd)))
    end
  | Responded res => (db, Responded res)
  end.

Fixpoint refresh_steps (n : nat) (now : Instant) (rnd : string) (req : Request)
    (db : Db) (pc : Refreshing) : Db * Refreshing :=
  match n with
  | O => (db, pc)
  | S n =>
    let '(db', pc') := refresh_step now rnd req db pc in
    refresh_steps n now rnd req db' pc'
  end.

(** Two refresh requests in flight; a schedule says whose store operation
    runs next. *)
Record Client := {
  c_now : Instant;
  c_rnd : string;
  c_req : Request;
}.

Inductive Turn := First | Second.

Fixpoint interleave (sched : list Turn) (c1 c2 : Client)
    (db : Db) (pc1 pc2 : Refreshing) : Db * Refreshing * Refreshing :=
  match sched with
  | [] => (db, pc1, pc2)
  | First :: sched =>
    let '(db', pc1') := refresh_step (c_now c1) (c_rnd c1) (c_req c1) db pc1 in
    interleave sched c1 c2 db' pc1' pc2
  | Second :: sched =>
    let '(db', pc2') := refresh_step (c_now c2) (c_rnd c2) (c_req c2) db pc2 in
    interleave sched c1 c2 db' pc1 pc2'
  end.

(** ** Handlers that only read, and the middleware *)

(** What these handlers answer: their JSON bodies are not among [Body]. *)
Record SessionView := {
  session_id : ObjectId;
  session_device : DeviceInfo;
  session_lastUsed : Instant;
  session_usageCount : Z;
  session_suspicious : bool;
  session_createdAt : Instant;
}.

Inductive Payload :=
  | Failure (error : string)
  | Sessions (sessions : list SessionView)
  | Valid (user : UserView)
  | Promoted (message : string) (id : ObjectId) (user_email : string) (user_role : string).

Record Reply := {
  reply_status : nat;
  reply_json : Payload;
}.

Definition reply (code : nat) (b : Payload) : Reply :=
  {| reply_status := code; reply_json := b |}.

(** [sort({ 'securityInfo.lastUsedAt': -1 })]: the most recently used
    first. *)
Definition lastUsedDesc (a b : RefreshToken) : Prop :=
  lastUsedAt (securityInfo b) ≤ lastUsedAt (securityInfo a).

#[global] Instance lastUsedDesc_dec a b : Decision (lastUsedDesc a b).
Proof. unfold lastUsedDesc. apply _. Defined.

(** One entry of the [sessions] array; [select('-token -userId')] and
    the mapping leave the secret out. *)
Definition sessionView (t : RefreshToken) : SessionView :=
  {| session_id := _id t;
     session_device := deviceInfo t;
     session_lastUsed := lastUsedAt (securityInfo t);
     session_usageCount := usageCount (securityInfo t);
     session_suspicious := suspiciousActivity (securityInfo t);
     session_createdAt := createdAt t |}.

Definition getActiveSessions (now : Instant) (req : Request) (db : Db) : Reply :=
  match req_userId req with
  | None => reply 401 (Failure "Unauthorized")
  | Some userId =>
    let activeSessions :=
      merge_sort lastUsedDesc (filter (activeOf now userId) (refreshTokens db)) in
    reply 200 (Sessions (sessionView <$> activeSessions))
  end.


(** [user.role = 'admin'] *)
Definition promoted (u : User) : User :=
  {| user_id := user_id u; email := email u; name := name u; role := "admin";
     isActive := isActive u; comparePassword := comparePassword u |}.

Definition promoteToAdmin (req : Request) (db : Db) : Db * Reply :=
  match findOne (withId (params_userId req)) (users db) with
  | None => (db, reply 404 (Failure "User not found"))
  | Some user =>
    let user := promoted user in
    ({| users := save_user user (users db); refreshTokens := refreshTokens db |},
     reply 200
       (Promoted "User promoted to admin successfully" (user_id user) (email user)
          (role user)))
  end.

(** A middleware either answers or hands over to the next handler. *)
Inductive Outcome :=
  | Next
  | Answered (res : Reply).

Definition requireAdmin (req : Request) (db : Db) : Outcome :=
  match req_userId req with
  | None => Answered (reply 401 (Failure "Unauthorized"))
  | Some userId =>
    match findOne (withId userId) (users db) with
    | None => Answered (reply 404 (Failure "User not found"))
    | Some user =>
      if negb (String.eqb (role user) "admin")
      then Answered (reply 403 (Failure "Forbidden: Admin access required"))
      else if negb (isActive user)
      then Answered (reply 403 (Failure "Account is deactivated"))
      else Next
    end
  end.

(** [s.split(' ')]: the pieces between single spaces; two spaces in a row
    give an empty piece. *)
Fixpoint split_space (s : string) : list string :=
  match s with
  | EmptyString => [EmptyString]
  | String c rest =>
    if Ascii.eqb c " "%char then EmptyString :: split_space rest
    else
      match split_space rest with
      | piece :: pieces => String c piece :: pieces
      | [] => [String c EmptyString]
      end
  end.

Section Authenticate.

(** [verifyAccessToken], i.e. [jwt.verify] under the server's secret:
    [None] when it throws. *)
Variable verifyAccessToken : string → option TokenPayload.

(** authenticateToken of middleware/auth.ts on the [authorization]
    header: the answer, or the payload whose [userId] and [email] are put
    on the request before [next()]. *)
Definition authenticateToken (authorization : option string) : Reply + TokenPayload :=
  let token :=
    match authorization with
    | None => None
    | Some authHeader =>
      if String.eqb authHeader "" then Some ""
      else split_space authHeader !! 1%nat
    end in
  if negb (truthy token) then inl (reply 401 (Failure "Access token required"))
  else
    match token ≫= verifyAccessToken with
    | None => inl (reply 403 (Failure "Invalid or expired token"))
    | Some decoded => inr decoded
    end.

(** [req.userId = decoded.userId] *)
Definition with_userId (req : Request) (uid : ObjectId) : Request :=
  {| validationErrors := validationErrors req;
     body_email := body_email req; body_password := body_password req;
     body_name := body_name req; body_refreshToken := body_refreshToken req;
     body_deviceId := body_deviceId req; body_deviceName := body_deviceName req;
     body_platform := body_platform req; body_appVersion := body_appVersion req;
     body_osVersion := body_osVersion req;
     header_x_device_id := header_x_device_id req;
     header_x_device_name := header_x_device_name req;
     header_x_platform := header_x_platform req;
     header_x_app_version := header_x_app_version req;
     header_x_os_version := header_x_os_version req;
     header_x_forwarded_for := header_x_forwarded_for req;
     header_user_agent := header_user_agent req;
     ip := ip req;
     req_userId := Some uid;
     params_sessionId := params_sessionId req; params_userId := params_userId req |}.

(** routes/admin.routes.ts: [router.use(authenticateToken)] and
    [router.use(requireAdmin)] run before every admin handler; the result
    is the answer of a middleware, or the request as the handler gets
    it. *)
Definition admin_guard (authorization : option string) (req : Request) (db : Db)
    : Reply + Request :=
  match authenticateToken authorization with
  | inl res => inl res
  | inr decoded =>
    let req := with_userId req (payload_userId decoded) in
    match requireAdmin req db with
    | Answered res => inl res
    | Next => inr req
    end
  end.

(** [router.patch('/users/:userId/toggle-status', toggleUserStatus)] *)
Definition patch_toggle_status (authorization : option string) (now : Instant)
    (req : Request) (db : Db) : Db * (Reply + Response) :=
  match admin_guard authorization req db with
  | inl res => (db, inl res)
  | inr req => let '(db', res) := toggleUserStatus now req db in (db', inr res)
  end.

(** [router.patch('/users/:userId/promote', promoteToAdmin)] *)
Definition patch_promote (authorization : option string) (req : Request) (db : Db)
    : Db * Reply :=
  match admin_guard authorization req db with
  | inl res => (db, res)
  | inr req => promoteToAdmin req db
  end.

End Authenticate.

(** ** Sample data for the examples *)

Module Sample.

(** A User constructor: role "user", active, the password kept as it is. *)
Definition newUser (oid : ObjectId) (e p n : string) : User :=
  {| user_id := oid; email := e; name := n; role := "user"; isActive := true;
     comparePassword := String.eqb p |}.

Definition alice : User := newUser 1 "alice@example.com" "correct horse" "Alice".

(** A request of alice's client: [secret] is the refresh token of the
    body, [dev] its deviceId. *)
Definition request (secret dev : option string) : Request :=
  {| validationErrors := false;
     body_email := "alice@example.com"; body_password := "correct horse";
     body_name := "Alice";
     body_refreshToken := secret;
     body_deviceId := dev; body_deviceName := Some "Phone"; body_platform := Some "ios";
     body_appVersion := None; body_osVersion := None;
     header_x_device_id := None; header_x_device_name := None;
     header_x_platform := None; header_x_app_version := None;
     header_x_os_version := None; header_x_forwarded_for := None;
     header_user_agent := Some "app/1.0";
     ip := Some "10.0.0.2";
     req_userId := Some 1%nat; params_sessionId := 1%nat; params_userId := 1%nat |}.

(** Alice's account with the given sessions. *)
Definition db (coll : list RefreshToken) : Db :=
  {| users := [alice]; refreshTokens := coll |}.

(** The database after alice has signed up at instant 0 from device d1,
    drawing the secret s1. *)
Definition signed_up : Db :=
  (signUp newUser 0 "s1" (request None (Some "d1")) {| users := []; refreshTokens := [] |}).1.

(** The session that sign-up created: it expires 30 days after 0. *)
Definition stored : RefreshToken :=
  newRefreshToken 1 0 1%nat "s1" 2592000000 (getDeviceInfo (request None (Some "d1")))
    (getSecurityInfo 0 (request None (Some "d1"))).

(** Two refresh requests presenting the secret of [stored]. *)
Definition client1 : Client :=
  {| c_now := 1000; c_rnd := "n1"; c_req := request (Some "s1") None |}.
Definition client2 : Client :=
  {| c_now := 1001; c_rnd := "n2"; c_req := request (Some "s1") None |}.

(** Alice signs in from device [dev] at [now], drawing the secret [rnd]. *)
Definition signs_in (now : Instant) (rnd dev : string) (d : Db) : Db :=
  (signIn now rnd (request None (Some dev)) d).1.

(** Five sign-ins from five devices within five seconds. *)
Definition five_devices : Db :=
  signs_in 5000 "t5" "d5"
    (signs_in 4000 "t4" "d4"
       (signs_in 3000 "t3" "d3"
          (signs_in 2000 "t2" "d2"
             (signs_in 1000 "t1" "d1" (db []))))).

(** Sign-up on d1, then sign-ins from d2 and d3: three active sessions. *)
Definition three_sessions : Db :=
  signs_in 2000 "s3" "d3" (signs_in 1000 "s2" "d2" signed_up).

(** The database after a logout at 1000 that presents the secret s1. *)
Definition logged_out : Db :=
  (logout 1000 (request (Some "s1") None) signed_up).1.

End Sample.

(** ** Further sample data *)

Module Scenario.

(** A request of alice's client that names a platform outside the enum. *)
Definition desktop_request (dev : option string) : Request :=
  {| validationErrors := false;
     body_email := "alice@example.com"; body_password := "correct horse";
     body_name := "Alice";
     body_refreshToken := None;
     body_deviceId := dev; body_deviceName := Some "Workstation";
     body_platform := Some "desktop";
     body_appVersion := None; body_osVersion := None;
     header_x_device_id := None; header_x_device_name := None;
     header_x_platform := None; header_x_app_version := None;
     header_x_os_version := None; header_x_forwarded_for := None;
     header_user_agent := Some "app/1.0";
     ip := Some "10.0.0.2";
     req_userId := Some 1%nat; params_sessionId := 1%nat; params_userId := 1%nat |}.

(** A request made under the access token of user [uid], about session
    [sid] and user [target]. *)
Definition request_of (uid : option ObjectId) (sid target : ObjectId)
    (secret : option string) : Request :=
  {| validationErrors := false;
     body_email := "bob@example.com"; body_password := "battery staple";
     body_name := "Bob";
     body_refreshToken := secret;
     body_deviceId := Some "b1"; body_deviceName := Some "Tablet";
     body_platform := Some "android";
     body_appVersion := None; body_osVersion := None;
     header_x_device_id := None; header_x_device_name := None;
     header_x_platform := None; header_x_app_version := None;
     header_x_os_version := None; header_x_forwarded_for := None;
     header_user_agent := Some "app/1.0";
     ip := Some "10.0.0.3";
     req_userId := uid; params_sessionId := sid; params_userId := target |}.

Definition nobody : Db := {| users := []; refreshTokens := [] |}.

(** Alice signs up at 0 (session 1, secret s1), then bob at 500 (session
    2, secret b1). *)
Definition two_users : Db :=
  (signUp Sample.newUser 500 "b1" (request_of None 0 0 None) Sample.signed_up).1.

(** The access token "tok" verifies to alice; nothing else verifies. *)
Definition verify (t : string) : option TokenPayload :=
  if String.eqb t "tok"
  then Some {| payload_userId := 1; payload_email := "alice@example.com" |}
  else None.

(** Alice has signed up and was promoted to admin. *)
Definition with_admin : Db :=
  (promoteToAdmin (Sample.request None None) Sample.signed_up).1.

End Scenario.

(** ** Vocabulary of the properties *)

(** A session of [uid] on device [dev] that is usable at [at_]. *)
Definition activeOn (at_ : Instant) (uid : ObjectId) (dev : string) (t : RefreshToken)
    : Prop :=
  activeOf at_ uid t ∧ deviceId (deviceInfo t) = dev.

#[global] Instance activeOn_dec at_ uid dev t : Decision (activeOn at_ uid dev t).
Proof. unfold activeOn. apply _. Defined.

(** The rotation links of the stored sessions, in store order. *)
Definition links (db : Db) : list (option string) :=
  replacedByToken <$> refreshTokens db.

(** The requests that read or write sessions. *)
Inductive Call :=
  | CallSignUp
  | CallSignIn
  | CallRefresh
  | CallLogout
  | CallLogoutAll
  | CallRevokeSession
  | CallToggleUserStatus.

Definition handle (newUser : ObjectId → string → string → string → User) (c : Call)
    (now : Instant) (rnd : string) (req : Request) (db : Db) : Db * Response :=
  match c with
  | CallSignUp => signUp newUser now rnd req db
  | CallSignIn => signIn now rnd req db
  | CallRefresh => refreshAccessToken now rnd req db
  | CallLogout => logout now req db
  | CallLogoutAll => logoutAllDevices now req db
  | CallRevokeSession => revokeSession now req db
  | CallToggleUserStatus => toggleUserStatus now req db
  end.

(** The databases the handlers produce from one without sessions, each
    request handled to its end before the next begins. *)
Inductive reachable (newUser : ObjectId → string → string → string → User) : Db → Prop :=
  | reachable_init (us : list User) :
      reachable newUser {| users := us; refreshTokens := [] |}
  | reachable_call (c : Call) (now : Instant) (rnd : string) (req : Request) (db : Db) :
      reachable newUser db →
      reachable newUser (handle newUser c now rnd req db).1.

(** A session with a rotation link is revoked. *)
Definition linked_revoked (t : RefreshToken) : Prop :=
  replacedByToken t ≠ None → isRevoked t = true ∧ revokedAt t ≠ None.

(** [d'] is [d] written back revoked at [now]: identifier, owner,
    secret, dates and device are those of [d]. *)
Definition revoked_copy (now : Instant) (d d' : RefreshToken) : Prop :=
  _id d' = _id d ∧ userId d' = userId d ∧ token d' = token d
  ∧ expiresAt d' = expiresAt d ∧ createdAt d' = createdAt d
  ∧ deviceInfo d' = deviceInfo d
  ∧ isRevoked d' = true ∧ revokedAt d' = Some now.

(** A stored session as the handlers leave it: revokedAt is set exactly
    when the session is revoked, and it passes the schema's validation. *)
Definition well_formed (t : RefreshToken) : Prop :=
  (isRevoked t = true ↔ revokedAt t ≠ None)
  ∧ validates t = true.

(** A string without a space. *)
Fixpoint spaceless (s : string) : Prop :=
  match s with
  | EmptyString => True
  | String c rest => c ≠ " "%char ∧ spaceless rest
  end.

(** Every session belongs to a user id that the directory has handed
    out. *)
Definition owners_known (db : Db) : Prop :=
  ∀ t, t ∈ refreshTokens db → (userId t < freshUserId (users db))%nat.

(** A user has at most one unrevoked session per device. *)
Definition one_per_device (coll : list RefreshToken) : Prop :=
  ∀ uid dev, (length (filter (onDevice uid dev) coll) ≤ 1)%nat.

(** * Properties *)

(** ** Queries *)

Section Queries.
Context {A : Type} (P : A → Prop) `{∀ x, Decision (P x)}.

Lemma findOne_Some (coll : list A) (x : A) :
  findOne P coll = Some x → x ∈ coll ∧ P x.
Proof.
  unfold findOne. intros Hf.
  destruct (list_find P coll) as [[i y]|] eqn:E; simplify_eq/=.
  apply list_find_Some in E as (Hi & HP & _).
  split; [by eapply list_elem_of_lookup_2|done].
Qed.

Lemma findOne_None (coll : list A) :
  findOne P coll = None ↔ Forall (λ x, ¬ P x) coll.
Proof.
  unfold findOne. rewrite fmap_None. apply list_find_None.
Qed.

Lemma updateMany_length (f : A → A) (coll : list A) :
  length (updateMany P f coll) = length coll.
Proof. unfold updateMany. by rewrite length_fmap. Qed.

Lemma updateMany_lookup (f : A → A) (coll : list A) (i : nat) :
  updateMany P f coll !! i
  = (λ d, if decide (P d) then f d else d) <$> coll !! i.
Proof. unfold updateMany. by rewrite list_lookup_fmap. Qed.

End Queries.

(** ** Refresh *)

(** The handler is the run of its four store operations. *)
Lemma refresh_steps_complete now rnd req db :
  refresh_steps 4 now rnd req db AtFindToken
  = let '(db', res) := refreshAccessToken now rnd req db in (db', Responded res).
Proof.
  unfold refreshAccessToken. cbn [refresh_steps refresh_step].
  destruct (negb (truthy (body_refreshToken req))); [done|].
  destruct (findOne _ (refreshTokens db)) as [S|]; [|done].
  case_bool_decide; [done|].
  cbn [refresh_step].
  destruct (findOne _ (users db)) as [u|]; [|done].
  destruct (negb (isActive u)); [done|].
  cbn [refresh_step with_tokens refreshTokens users].
  destruct (create _ _ _ _ _ _ _); done.
Qed.

Lemma create_Some now uid tok exp dev sec coll coll' :
  create now uid tok exp dev sec coll = Some coll' →
  coll' = coll ++ [newRefreshToken (freshId coll) now uid tok exp dev sec]
  ∧ tok ∉ token <$> coll.
Proof.
  unfold create. intros Hc.
  destruct (validates _); [|done]. cbn in Hc.
  case_bool_decide; by simplify_eq.
Qed.

Lemma NoDup_fmap_elem {A B} (f : A → B) (l : list A) (x y : A) :
  NoDup (f <$> l) → x ∈ l → y ∈ l → f x = f y → x = y.
Proof.
  induction l as [|a l IH]; intros Hnd Hx Hy Hf; [by apply elem_of_nil in Hx|].
  rewrite fmap_cons in Hnd. apply NoDup_cons in Hnd as [Ha Hnd].
  apply elem_of_cons in Hx as [->|Hx]; apply elem_of_cons in Hy as [->|Hy]; try done.
  - exfalso. apply Ha. rewrite Hf. by apply list_elem_of_fmap_2.
  - exfalso. apply Ha. rewrite <- Hf. by apply list_elem_of_fmap_2.
  - by apply IH.
Qed.

Lemma save_tokens doc coll :
  (∀ d, d ∈ coll → _id d = _id doc → token d = token doc) →
  token <$> save doc coll = token <$> coll.
Proof.
  intros Hd. unfold save. rewrite <- list_fmap_compose.
  apply list_fmap_ext. intros i d Hin%list_elem_of_lookup_2. cbn.
  case_decide; [symmetry; by apply Hd|done].
Qed.

Lemma create_succeeds now uid tok exp dev sec coll :
  tok ≠ "" →
  deviceId dev ≠ "" → deviceName dev ≠ "" → platform dev ∈ platforms →
  tok ∉ token <$> coll →
  create now uid tok exp dev sec coll
  = Some (coll ++ [newRefreshToken (freshId coll) now uid tok exp dev sec]).
Proof.
  intros Htok Hid Hname Hplat Hfresh. unfold create, validates.
  cbn [token deviceInfo newRefreshToken].
  by rewrite !bool_decide_eq_true_2.
Qed.

Lemma save_elem S' coll :
  (∃ S, S ∈ coll ∧ _id S = _id S') → S' ∈ save S' coll.
Proof.
  intros (S & HS & Hid). unfold save.
  apply list_elem_of_fmap. exists S. by rewrite decide_True.
Qed.

(** A new document whose secret is empty or already stored is refused by
    the store. *)
Lemma create_refused now uid tok exp dev sec coll :
  tok = "" ∨ tok ∈ token <$> coll →
  create now uid tok exp dev sec coll = None.
Proof.
  intros [->|Hin]; unfold create.
  - unfold validates. rewrite bool_decide_eq_false_2; [done|]. cbn. by intros [? _].
  - rewrite (bool_decide_eq_false_2 (tok ∉ token <$> coll)) by auto.
    by rewrite andb_false_r.
Qed.

(** The secrets in the store after the old session is written back do not
    depend on the new secret. *)
Lemma save_mark_replaced_tokens now r1 r2 S coll :
  token <$> save (mark_replaced now r1 S) coll
  = token <$> save (mark_replaced now r2 S) coll.
Proof.
  unfold save. rewrite <- !list_fmap_compose. apply list_fmap_ext.
  intros i d _. cbn. by case_decide.
Qed.

(** A refresh whose successor the store refuses answers 500 after the old
    session has been written back rotated. *)
Lemma refresh_create_refused now rnd req db S user :
  truthy (body_refreshToken req) = true →
  findOne (unrevokedWithToken (body_refreshToken req)) (refreshTokens db) = Some S →
  ¬ expiresAt S < now →
  findOne (withId (userId S)) (users db) = Some user →
  isActive user = true →
  rnd = "" ∨ rnd ∈ token <$> save (mark_replaced now rnd (touch now req S)) (refreshTokens db) →
  refreshAccessToken now rnd req db
  = ({| users := users db;
        refreshTokens := save (mark_replaced now rnd (touch now req S)) (refreshTokens db) |},
     respond 500 (Error "Failed to refresh token")).
Proof.
  intros Hreq HS Hexp Hu Hact Hrnd.
  unfold refreshAccessToken. rewrite Hreq, HS. cbn [negb].
  rewrite bool_decide_eq_false_2 by done. rewrite Hu, Hact. cbn [negb].
  by rewrite create_refused.
Qed.

(** The run of a successful refresh up to its third store operation. *)
Lemma refresh_steps_saved_old now rnd req db S user :
  truthy (body_refreshToken req) = true →
  findOne (unrevokedWithToken (body_refreshToken req)) (refreshTokens db) = Some S →
  ¬ expiresAt S < now →
  findOne (withId (userId S)) (users db) = Some user →
  isActive user = true →
  refresh_steps 3 now rnd req db AtFindToken
  = ({| users := users db;
        refreshTokens := save (mark_replaced now rnd (touch now req S)) (refreshTokens db) |},
     AtSaveNew user (mark_replaced now rnd (touch now req S))).
Proof.
  intros Hreq HS Hexp Hu Hact.
  cbn [refresh_steps refresh_step]. rewrite Hreq, HS. cbn [negb].
  rewrite bool_decide_eq_false_2 by done.
  cbn [refresh_step]. by rewrite Hu, Hact.
Qed.

(** What a refresh that answers 200 has done. *)
Lemma refresh_success now rnd req db :
  status (refreshAccessToken now rnd req db).2 = 200%nat →
  ∃ S user,
    truthy (body_refreshToken req) = true
    ∧ findOne (unrevokedWithToken (body_refreshToken req)) (refreshTokens db) = Some S
    ∧ ¬ expiresAt S < now
    ∧ findOne (withId (userId S)) (users db) = Some user
    ∧ isActive user = true
    ∧ let S' := mark_replaced now rnd (touch now req S) in
      let rotated := save S' (refreshTokens db) in
      let N :=
        newRefreshToken (freshId rotated) now (userId S) rnd
          (getRefreshTokenExpiryDate now) (deviceInfo S) (carried now S') in
      create now (userId S) rnd (getRefreshTokenExpiryDate now) (deviceInfo S)
        (carried now S') rotated = Some (rotated ++ [N])
      ∧ refreshAccessToken now rnd req db
        = ({| users := users db; refreshTokens := rotated ++ [N] |},
           respond 200
             (Refreshed {| payload_userId := user_id user; payload_email := email user |}
                rnd)).
Proof.
  unfold refreshAccessToken.
  destruct (truthy (body_refreshToken req)); [|done]. cbn [negb].
  destruct (findOne _ (refreshTokens db)) as [S|] eqn:HS; [|done].
  case_bool_decide as Hexp; [done|].
  destruct (findOne _ (users db)) as [u|] eqn:Hu; [|done].
  destruct (isActive u) eqn:Hact; [|done]. cbn [negb].
  destruct (create _ _ _ _ _ _ _) as [coll'|] eqn:Hc; [|done].
  intros _. apply create_Some in Hc as Hc'. destruct Hc' as [-> _].
  exists S, u. repeat split; done.
Qed.

(** C1. A refresh that answers 200 found a stored session S by the
    presented secret, unrevoked, not past its expiry and owned by an
    active user; it touched S's securityInfo (lastUsedAt = now, usageCount
    + 1, ipAddress of the request), wrote S back rotated (isRevoked,
    revokedAt = now, replacedByToken = the new secret), and then created,
    in the store where S is already rotated, exactly one session: the
    successor with S's deviceInfo, ipAddress, userAgent and
    suspiciousActivity, usageCount 0, lastUsedAt = now and expiresAt =
    now + 30 days.  The write of S comes first: after the handler's third
    store operation S is stored rotated and no successor exists, the
    fourth operation adds the successor and answers; and had the new
    secret been one the store refuses (empty, or already stored), the
    same request is answered 500 with S stored rotated all the same and
    no successor. *)
Theorem refresh_success_rotates now rnd req db :
  status (refreshAccessToken now rnd req db).2 = 200%nat →
  ∃ S user N,
    findOne (unrevokedWithToken (body_refreshToken req)) (refreshTokens db) = Some S
    ∧ ¬ expiresAt S < now
    ∧ findOne (withId (userId S)) (users db) = Some user
    ∧ isActive user = true
    ∧ let S' := mark_replaced now rnd (touch now req S) in
      let rotated := save S' (refreshTokens db) in
      lastUsedAt (securityInfo S') = now
      ∧ usageCount (securityInfo S') = usageCount (securityInfo S) + 1
      ∧ ipAddress (securityInfo S') = js_or (ip req) (header_x_forwarded_for req)
      ∧ isRevoked S' = true
      ∧ revokedAt S' = Some now
      ∧ replacedByToken S' = Some rnd
      ∧ S' ∈ rotated
      ∧ length rotated = length (refreshTokens db)
      ∧ create now (userId S) rnd (getRefreshTokenExpiryDate now) (deviceInfo S)
          (carried now S') rotated = Some (rotated ++ [N])
      ∧ refreshTokens (refreshAccessToken now rnd req db).1 = rotated ++ [N]
      ∧ token N = rnd
      ∧ userId N = userId S
      ∧ deviceInfo N = deviceInfo S
      ∧ ipAddress (securityInfo N) = ipAddress (securityInfo S')
      ∧ userAgent (securityInfo N) = userAgent (securityInfo S)
      ∧ suspiciousActivity (securityInfo N) = suspiciousActivity (securityInfo S)
      ∧ usageCount (securityInfo N) = 0
      ∧ lastUsedAt (securityInfo N) = now
      ∧ expiresAt N = now + 30 * (24 * 60 * 60 * 1000)
      ∧ isRevoked N = false
      ∧ replacedByToken N = None
      ∧ refresh_steps 3 now rnd req db AtFindToken
        = ({| users := users db; refreshTokens := rotated |}, AtSaveNew user S')
      ∧ refresh_step now rnd req {| users := users db; refreshTokens := rotated |}
          (AtSaveNew user S')
        = ((refreshAccessToken now rnd req db).1,
           Responded (refreshAccessToken now rnd req db).2)
      ∧ ∀ rnd',
          rnd' = "" ∨ rnd' ∈ token <$> rotated →
          refreshAccessToken now rnd' req db
          = ({| users := users db;
                refreshTokens :=
                  save (mark_replaced now rnd' (touch now req S)) (refreshTokens db) |},
             respond 500 (Error "Failed to refresh token")).
Proof.
  intros Hok.
  destruct (refresh_success _ _ _ _ Hok) as (S & u & Hreq & HS & Hexp & Hu & Hact & H).
  cbv zeta in H. destruct H as [Hc Heq].
  match type of Hc with _ = Some (_ ++ [?N]) => exists S, u, N end.
  rewrite Heq. cbn [fst snd refreshTokens].
  cbv zeta. repeat match goal with |- _ ∧ _ => split end; try done.
  - apply save_elem. exists S. split; [|done]. by apply findOne_Some in HS as [? _].
  - unfold save. by rewrite length_fmap.
  - by apply refresh_steps_saved_old.
  - cbn [refresh_step]. cbn [userId deviceInfo mark_replaced touch refreshTokens].
    cbn [userId deviceInfo mark_replaced touch] in Hc. by rewrite Hc.
  - intros rnd' Hrnd'. apply (refresh_create_refused now rnd' req db S u); try done.
    destruct Hrnd' as [->|Hin]; [by left|right].
    by rewrite (save_mark_replaced_tokens now rnd' rnd).
Qed.

Lemma refresh_success_rotates_witness :
  ∃ S N,
    refreshTokens
      (refreshAccessToken 1000 "n1" (Sample.request (Some "s1") None)
         Sample.signed_up).1
    = [mark_replaced 1000 "n1" (touch 1000 (Sample.request (Some "s1") None) S); N]
    ∧ S = Sample.stored ∧ token N = "n1" ∧ expiresAt N = 2592001000
    ∧ refreshAccessToken 1000 "s1" (Sample.request (Some "s1") None) Sample.signed_up
      = ({| users := users Sample.signed_up;
            refreshTokens :=
              [mark_replaced 1000 "s1"
                 (touch 1000 (Sample.request (Some "s1") None) Sample.stored)] |},
         respond 500 (Error "Failed to refresh token")).
Proof.
  destruct (refresh_success_rotates 1000 "n1" (Sample.request (Some "s1") None)
              Sample.signed_up)
    as (S & u & N & HS & _ & _ & _ & H); [reflexivity|].
  cbv zeta in H.
  destruct H as (_ & _ & _ & _ & _ & _ & _ & _ & _ & Hdb & Htok & _ & _ & _ & _ & _ & _ & _
                 & Hexp & _ & _ & _ & _ & Hrefused).
  assert (S = Sample.stored) as HeqS by (vm_compute in HS; by injection HS as <-).
  exists S, N.
  split; [|split; [exact HeqS|split; [exact Htok|split; [exact Hexp|]]]].
  - rewrite Hdb. subst S. reflexivity.
  - subst S. rewrite (Hrefused "s1"); [reflexivity|].
    right. apply (bool_decide_unpack _). exact I.
Defined.


(** The failures of a refresh leave the database as it was. *)
Lemma refresh_invalid_token now rnd req db :
  truthy (body_refreshToken req) = true →
  (∀ t, t ∈ refreshTokens db → Some (token t) = body_refreshToken req → isRevoked t = true) →
  refreshAccessToken now rnd req db = (db, InvalidRefreshToken).
Proof.
  intros Hreq Hnone. unfold refreshAccessToken. rewrite Hreq. cbn [negb].
  destruct (findOne _ (refreshTokens db)) as [S|] eqn:HS; [|done].
  apply findOne_Some in HS as [Hin [Htok Hrev]].
  specialize (Hnone S Hin Htok). congruence.
Qed.

Lemma refresh_expired now rnd req db S :
  truthy (body_refreshToken req) = true →
  findOne (unrevokedWithToken (body_refreshToken req)) (refreshTokens db) = Some S →
  expiresAt S < now →
  refreshAccessToken now rnd req db = (db, RefreshTokenExpired).
Proof.
  intros Hreq HS Hexp. unfold refreshAccessToken. rewrite Hreq, HS. cbn [negb].
  by rewrite bool_decide_eq_true_2.
Qed.

Lemma refresh_user_inactive now rnd req db S :
  truthy (body_refreshToken req) = true →
  findOne (unrevokedWithToken (body_refreshToken req)) (refreshTokens db) = Some S →
  ¬ expiresAt S < now →
  (∀ u, findOne (withId (userId S)) (users db) = Some u → isActive u = false) →
  refreshAccessToken now rnd req db = (db, UserInactive).
Proof.
  intros Hreq HS Hexp Hu. unfold refreshAccessToken. rewrite Hreq, HS. cbn [negb].
  rewrite bool_decide_eq_false_2 by done.
  destruct (findOne _ (users db)) as [u|]; [|done].
  by rewrite (Hu u eq_refl).
Qed.

(** The expiry test of the handler is [expiresAt < now]. *)
Lemma refresh_expired_iff now rnd req db S :
  truthy (body_refreshToken req) = true →
  findOne (unrevokedWithToken (body_refreshToken req)) (refreshTokens db) = Some S →
  (refreshAccessToken now rnd req db).2 = RefreshTokenExpired ↔ expiresAt S < now.
Proof.
  intros Hreq HS. split.
  - unfold refreshAccessToken. rewrite Hreq, HS. cbn [negb].
    case_bool_decide; [done|].
    destruct (findOne _ (users db)) as [u|]; [|done].
    destruct (negb (isActive u)); [done|].
    destruct (create _ _ _ _ _ _ _); done.
  - intros Hexp. by erewrite refresh_expired.
Qed.

Example signed_up_stored : refreshTokens Sample.signed_up = [Sample.stored].
Proof. reflexivity. Qed.

(** C2. A session whose expiresAt equals the instant of the request is not
    rejected as expired: the refresh answers 200 and rotates it, although
    the queries for active sessions ([expiresAt > now]) no longer list
    it.  Here the session created by a sign-up at 0 is presented exactly
    30 days later. *)
Theorem refresh_at_expiry_instant_accepted :
  expiresAt Sample.stored = 2592000000
  ∧ activeTokens 2592000000 1%nat (refreshTokens Sample.signed_up) = []
  ∧ (refreshAccessToken 2592000000 "n1" (Sample.request (Some "s1") None)
       Sample.signed_up).2
    ≠ RefreshTokenExpired
  ∧ status
      (refreshAccessToken 2592000000 "n1" (Sample.request (Some "s1") None)
         Sample.signed_up).2
    = 200%nat
  ∧ token <$>
      refreshTokens
        (refreshAccessToken 2592000000 "n1" (Sample.request (Some "s1") None)
           Sample.signed_up).1
    = ["s1"; "n1"]
  ∧ isRevoked <$>
      refreshTokens
        (refreshAccessToken 2592000000 "n1" (Sample.request (Some "s1") None)
           Sample.signed_up).1
    = [true; false].
Proof. vm_compute. split_and!; done. Qed.

(** ** Refresh requests in flight together *)

(** C3. Two refresh requests presenting the same secret, their store
    operations alternating: both find the session unrevoked, both rotate
    it and both answer 200; the session's replacedByToken is the secret of
    the second writer, and two successors exist. *)
Theorem refresh_race_both_succeed :
  let sched := [First; Second; First; Second; First; Second; First; Second] in
  let '(db', pc1, pc2) :=
    interleave sched Sample.client1 Sample.client2 Sample.signed_up
      AtFindToken AtFindToken in
  pc1 = Responded (respond 200 (Refreshed (Build_TokenPayload 1 "alice@example.com") "n1"))
  ∧ pc2 = Responded (respond 200 (Refreshed (Build_TokenPayload 1 "alice@example.com") "n2"))
  ∧ pc2 ≠ Responded InvalidRefreshToken
  ∧ token <$> refreshTokens db' = ["s1"; "n1"; "n2"]
  ∧ isRevoked <$> refreshTokens db' = [true; false; false]
  ∧ replacedByToken <$> refreshTokens db' = [Some "n2"; None; None].
Proof. vm_compute. repeat split; done. Qed.

Lemma save_ids doc coll : _id <$> save doc coll = _id <$> coll.
Proof.
  unfold save. rewrite <- list_fmap_compose.
  apply list_fmap_ext. intros i d _. cbn. by case_decide.
Qed.

Lemma save_tokens_of doc coll S :
  NoDup (_id <$> coll) → S ∈ coll → _id doc = _id S → token doc = token S →
  token <$> save doc coll = token <$> coll.
Proof.
  intros Hnd HS Hid Htok. apply save_tokens. intros d Hd Hdid.
  rewrite Htok. f_equal. apply (NoDup_fmap_elem _id coll); try done. congruence.
Qed.

(** The race on any store: whenever two requests present the secret of the
    same usable session and draw distinct unused secrets, the alternating
    schedule lets both succeed. *)
Lemma refresh_race c1 c2 db S user :
  truthy (body_refreshToken (c_req c1)) = true →
  body_refreshToken (c_req c2) = body_refreshToken (c_req c1) →
  findOne (unrevokedWithToken (body_refreshToken (c_req c1))) (refreshTokens db) = Some S →
  ¬ expiresAt S < c_now c1 →
  ¬ expiresAt S < c_now c2 →
  findOne (withId (userId S)) (users db) = Some user →
  isActive user = true →
  deviceId (deviceInfo S) ≠ "" → deviceName (deviceInfo S) ≠ "" →
  platform (deviceInfo S) ∈ platforms →
  c_rnd c1 ≠ "" → c_rnd c2 ≠ "" → c_rnd c1 ≠ c_rnd c2 →
  c_rnd c1 ∉ token <$> refreshTokens db →
  c_rnd c2 ∉ token <$> refreshTokens db →
  NoDup (_id <$> refreshTokens db) →
  ∃ db',
    interleave [First; Second; First; Second; First; Second; First; Second] c1 c2 db
      AtFindToken AtFindToken
    = (db',
       Responded
         (respond 200
            (Refreshed {| payload_userId := user_id user; payload_email := email user |}
               (c_rnd c1))),
       Responded
         (respond 200
            (Refreshed {| payload_userId := user_id user; payload_email := email user |}
               (c_rnd c2)))).
Proof.
  intros Hreq Hsame HS Hexp1 Hexp2 Hu Hact Hid Hname Hplat Hr1 Hr2 Hr12 Hf1 Hf2 Hnd.
  assert (S ∈ refreshTokens db) as HSin by (by apply findOne_Some in HS as [? _]).
  set (S1 := mark_replaced (c_now c1) (c_rnd c1) (touch (c_now c1) (c_req c1) S)).
  set (S2 := mark_replaced (c_now c2) (c_rnd c2) (touch (c_now c2) (c_req c2) S)).
  set (coll1 := save S1 (refreshTokens db)).
  set (coll2 := save S2 coll1).
  assert (token <$> coll1 = token <$> refreshTokens db) as Ht1
    by (by apply (save_tokens_of _ _ S)).
  assert (S1 ∈ coll1) as HS1 by (apply save_elem; by exists S).
  assert (token <$> coll2 = token <$> refreshTokens db) as Ht2.
  { rewrite <- Ht1. apply (save_tokens_of _ _ S1); try done.
    unfold coll1. by rewrite save_ids. }
  repeat (progress
            (cbn [interleave refresh_step negb with_tokens users refreshTokens];
             rewrite ?Hsame, ?Hreq, ?HS, ?Hu, ?Hact,
               ?(bool_decide_eq_false_2 _ Hexp1), ?(bool_decide_eq_false_2 _ Hexp2))).
  fold S1 S2 coll1 coll2.
  rewrite create_succeeds; try done; [|by rewrite Ht2].
  cbn [refreshTokens with_tokens].
  rewrite create_succeeds; try done; [by eexists|].
  rewrite fmap_app, Ht2. cbn. intros [?|Hin%list_elem_of_singleton]%elem_of_app; by auto.
Qed.

(** One after the other, the same two requests give one success and one
    InvalidRefreshToken. *)
Example refresh_in_sequence :
  let sched := [First; First; First; First; Second; Second; Second; Second] in
  let '(db', pc1, pc2) :=
    interleave sched Sample.client1 Sample.client2 Sample.signed_up
      AtFindToken AtFindToken in
  pc1 = Responded (respond 200 (Refreshed (Build_TokenPayload 1 "alice@example.com") "n1"))
  ∧ pc2 = Responded InvalidRefreshToken
  ∧ replacedByToken <$> refreshTokens db' = [Some "n1"; None].
Proof. vm_compute. repeat split; done. Qed.

(** Single use, one request after the other: once a refresh has answered
    200, presenting the same secret again is answered InvalidRefreshToken
    and changes nothing. *)
Lemma refresh_replay_rejected now rnd req db now' rnd' :
  NoDup (token <$> refreshTokens db) →
  NoDup (_id <$> refreshTokens db) →
  status (refreshAccessToken now rnd req db).2 = 200%nat →
  let db' := (refreshAccessToken now rnd req db).1 in
  refreshAccessToken now' rnd' req db' = (db', InvalidRefreshToken).
Proof.
  intros Htok Hid Hok. cbv zeta.
  destruct (refresh_success _ _ _ _ Hok) as (S & u & Hreq & HS & _ & _ & _ & H).
  cbv zeta in H. destruct H as [Hc Heq]. rewrite Heq. cbn [fst].
  apply findOne_Some in HS as [HSin [HStok _]].
  apply refresh_invalid_token; [done|].
  cbn [refreshTokens]. intros t Hin Ht.
  apply elem_of_app in Hin as [Hin|Hin].
  - unfold save in Hin. apply list_elem_of_fmap in Hin as (d & -> & Hd).
    case_decide as Hdid; [done|]. exfalso. apply Hdid. cbn.
    f_equal. apply (NoDup_fmap_elem token (refreshTokens db)); try done.
    rewrite <- HStok in Ht. by injection Ht.
  - apply list_elem_of_singleton in Hin as ->. exfalso.
    apply create_Some in Hc as [_ Hfresh]. apply Hfresh.
    rewrite save_tokens.
    + rewrite <- HStok in Ht. injection Ht as Ht. cbn in Ht. rewrite Ht.
      by apply list_elem_of_fmap_2.
    + intros d Hd Hdid. cbn in *. f_equal.
      by apply (NoDup_fmap_elem _id (refreshTokens db)).
Qed.

(** ** Sign-in *)

Lemma signIn_success now rnd req db :
  status (signIn now rnd req db).2 = 200%nat →
  ∃ user,
    findOne (withEmail (body_email req)) (users db) = Some user
    ∧ isActive user = true
    ∧ comparePassword user (body_password req) = true
    ∧ let dev := getDeviceInfo req in
      let flag := detectSuspiciousActivity now (user_id user) dev (refreshTokens db) in
      let revoked :=
        updateMany (onDevice (user_id user) (deviceId dev)) (set_revoked now)
          (refreshTokens db) in
      let N :=
        newRefreshToken (freshId revoked) now (user_id user) rnd
          (getRefreshTokenExpiryDate now) dev
          (set_suspiciousActivity flag (getSecurityInfo now req)) in
      create now (user_id user) rnd (getRefreshTokenExpiryDate now) dev
        (set_suspiciousActivity flag (getSecurityInfo now req)) revoked
      = Some (revoked ++ [N])
      ∧ signIn now rnd req db
        = ({| users := users db; refreshTokens := revoked ++ [N] |},
           respond 200
             (Authenticated "Signed in successfully" (view user)
                {| payload_userId := user_id user; payload_email := email user |} rnd
                (if flag then Some "Suspicious activity detected" else None))).
Proof.
  unfold signIn.
  destruct (validationErrors req); [done|].
  destruct (findOne _ (users db)) as [u|] eqn:Hu; [|done].
  destruct (isActive u) eqn:Hact; [|done]. cbn [negb].
  destruct (comparePassword u _) eqn:Hpw; [|done]. cbn [negb].
  destruct (create _ _ _ _ _ _ _) as [coll'|] eqn:Hc; [|done].
  intros _. apply create_Some in Hc as Hc'. destruct Hc' as [-> _].
  exists u. repeat split; done.
Qed.

Section UpdateMany.
Context {A : Type} (P Q : A → Prop) `{∀ x, Decision (P x)} `{∀ x, Decision (Q x)}.

(** No document matches [P] after the update. *)
Lemma filter_updateMany_nil (f : A → A) (coll : list A) :
  (∀ d, Q d → ¬ P (f d)) → (∀ d, ¬ Q d → ¬ P d) →
  filter P (updateMany Q f coll) = [].
Proof.
  intros Hf Hn. unfold updateMany.
  induction coll as [|d coll IH]; [done|].
  rewrite fmap_cons, filter_cons_False; [done|].
  case_decide; auto.
Qed.

(** The update does not reach the documents matching [P]. *)
Lemma filter_updateMany_id (f : A → A) (coll : list A) :
  (∀ d, Q d → ¬ P d ∧ ¬ P (f d)) →
  filter P (updateMany Q f coll) = filter P coll.
Proof.
  intros Hf. unfold updateMany.
  induction coll as [|d coll IH]; [done|].
  rewrite fmap_cons. case_decide as HQ.
  - destruct (Hf d HQ). by rewrite !filter_cons_False.
  - destruct (decide (P d)).
    + rewrite !filter_cons_True by done. by f_equal.
    + by rewrite !filter_cons_False.
Qed.

End UpdateMany.

Lemma signIn_users now rnd req db :
  users (signIn now rnd req db).1 = users db.
Proof.
  unfold signIn.
  destruct (validationErrors req); [done|].
  destruct (findOne _ (users db)) as [u|]; [|done].
  destruct (negb (isActive u)); [done|].
  destruct (negb (comparePassword u _)); [done|].
  destruct (create _ _ _ _ _ _ _); done.
Qed.

(** After a successful sign-in the user has, on the device of the request,
    the new session as the only unrevoked one. *)
Lemma signIn_one_active_on_device now rnd req db user at_ :
  status (signIn now rnd req db).2 = 200%nat →
  findOne (withEmail (body_email req)) (users db) = Some user →
  at_ < getRefreshTokenExpiryDate now →
  ∃ N, filter (activeOn at_ (user_id user) (deviceId (getDeviceInfo req)))
         (refreshTokens (signIn now rnd req db).1) = [N]
       ∧ token N = rnd.
Proof.
  intros Hok Hu Hat.
  destruct (signIn_success _ _ _ _ Hok) as (u & Hu' & _ & _ & H). cbv zeta in H.
  destruct H as [_ ->]. simplify_eq. cbn [fst refreshTokens].
  eexists. rewrite filter_app. rewrite filter_updateMany_nil.
  - rewrite filter_cons_True; [by rewrite filter_nil|].
    by repeat split.
  - intros d _ [[_ [Hrev _]] _]. done.
  - intros d Hnot [[Hid [Hrev _]] Hdev]. apply Hnot. by repeat split.
Qed.

(** A successful sign-in on another device leaves the active sessions of
    this device as they were. *)
Lemma signIn_other_device now rnd req db user at_ dev :
  status (signIn now rnd req db).2 = 200%nat →
  findOne (withEmail (body_email req)) (users db) = Some user →
  deviceId (getDeviceInfo req) ≠ dev →
  filter (activeOn at_ (user_id user) dev) (refreshTokens (signIn now rnd req db).1)
  = filter (activeOn at_ (user_id user) dev) (refreshTokens db).
Proof.
  intros Hok Hu Hdev.
  destruct (signIn_success _ _ _ _ Hok) as (u & Hu' & _ & _ & H). cbv zeta in H.
  destruct H as [_ ->]. simplify_eq. cbn [fst refreshTokens].
  rewrite filter_app, filter_updateMany_id.
  - rewrite filter_cons_False; [by rewrite filter_nil, app_nil_r|].
    intros [_ Hd]. by apply Hdev.
  - intros d (_ & Hd & _). split; intros [_ Hd']; apply Hdev; cbn in *; congruence.
Qed.

(** C4. A successful sign-in revokes, before it creates the new session,
    every unrevoked session of the same user on the same device
    (isRevoked, revokedAt = now, replacedByToken as it was) and leaves
    every other session as it was; so after two sign-ins from device A and
    one from device B the user has exactly one active session on A and
    one on B. *)
Theorem signIn_revokes_same_device_only :
  (∀ now rnd req db,
     status (signIn now rnd req db).2 = 200%nat →
     ∃ user N,
       findOne (withEmail (body_email req)) (users db) = Some user
       ∧ let uid := user_id user in
         let dev := deviceId (getDeviceInfo req) in
         let revoked :=
           updateMany (onDevice uid dev) (set_revoked now) (refreshTokens db) in
         (∀ i t, refreshTokens db !! i = Some t →
            (userId t = uid ∧ deviceId (deviceInfo t) = dev ∧ isRevoked t = false →
             revoked !! i = Some (set_revoked now t)
             ∧ isRevoked (set_revoked now t) = true
             ∧ revokedAt (set_revoked now t) = Some now
             ∧ replacedByToken (set_revoked now t) = replacedByToken t)
            ∧ (¬ (userId t = uid ∧ deviceId (deviceInfo t) = dev ∧ isRevoked t = false) →
               revoked !! i = Some t))
         ∧ length revoked = length (refreshTokens db)
         ∧ create now uid rnd (getRefreshTokenExpiryDate now) (getDeviceInfo req)
             (securityInfo N) revoked = Some (revoked ++ [N])
         ∧ refreshTokens (signIn now rnd req db).1 = revoked ++ [N]
         ∧ token N = rnd
         ∧ userId N = uid
         ∧ deviceInfo N = getDeviceInfo req
         ∧ isRevoked N = false
         ∧ replacedByToken N = None)
  ∧ (∀ now1 now2 now3 rnd1 rnd2 rnd3 reqA1 reqA2 reqB db at_,
       let A := deviceId (getDeviceInfo reqA1) in
       let B := deviceId (getDeviceInfo reqB) in
       let db1 := (signIn now1 rnd1 reqA1 db).1 in
       let db2 := (signIn now2 rnd2 reqA2 db1).1 in
       let db3 := (signIn now3 rnd3 reqB db2).1 in
       status (signIn now1 rnd1 reqA1 db).2 = 200%nat →
       status (signIn now2 rnd2 reqA2 db1).2 = 200%nat →
       status (signIn now3 rnd3 reqB db2).2 = 200%nat →
       body_email reqA2 = body_email reqA1 →
       body_email reqB = body_email reqA1 →
       deviceId (getDeviceInfo reqA2) = A →
       B ≠ A →
       at_ < getRefreshTokenExpiryDate now2 →
       at_ < getRefreshTokenExpiryDate now3 →
       ∃ user,
         findOne (withEmail (body_email reqA1)) (users db) = Some user
         ∧ length (filter (activeOn at_ (user_id user) A) (refreshTokens db3)) = 1%nat
         ∧ length (filter (activeOn at_ (user_id user) B) (refreshTokens db3)) = 1%nat).
Proof.
  split.
  - intros now rnd req db Hok.
    destruct (signIn_success _ _ _ _ Hok) as (u & Hu & _ & _ & H). cbv zeta in H.
    destruct H as [Hc Heq].
    match type of Hc with _ = Some (_ ++ [?N]) => exists u, N end.
    split; [done|]. cbv zeta.
    split; [|split; [apply updateMany_length|split; [exact Hc|]]].
    + intros i t Ht. split.
      * intros Hm. rewrite updateMany_lookup, Ht. cbn.
        by rewrite decide_True.
      * intros Hm. rewrite updateMany_lookup, Ht. cbn.
        by rewrite decide_False.
    + rewrite Heq. done.
  - intros now1 now2 now3 rnd1 rnd2 rnd3 reqA1 reqA2 reqB db at_ A B db1 db2 db3
      Hok1 Hok2 Hok3 HeA HeB HdA HdB Hat2 Hat3.
    destruct (signIn_success _ _ _ _ Hok1) as (u & Hu & _).
    exists u. split; [done|].
    assert (findOne (withEmail (body_email reqA2)) (users db1) = Some u) as Hu2.
    { unfold db1. by rewrite signIn_users, HeA. }
    assert (findOne (withEmail (body_email reqB)) (users db2) = Some u) as Hu3.
    { unfold db2, db1. by rewrite !signIn_users, HeB. }
    split.
    + unfold db3. rewrite (signIn_other_device _ _ _ _ u) by done.
      destruct (signIn_one_active_on_device _ _ _ _ u at_ Hok2 Hu2 Hat2) as (N & HN & _).
      unfold db2. rewrite <- HdA, HN. done.
    + destruct (signIn_one_active_on_device _ _ _ _ u at_ Hok3 Hu3 Hat3) as (N & HN & _).
      unfold db3, B. by rewrite HN.
Qed.

Lemma signIn_revokes_same_device_only_witness :
  let reqA := Sample.request None (Some "A") in
  let reqB := Sample.request None (Some "B") in
  let db1 := (signIn 1000 "t1" reqA (Sample.db [])).1 in
  let db2 := (signIn 2000 "t2" reqA db1).1 in
  let db3 := (signIn 3000 "t3" reqB db2).1 in
  (∃ N, refreshTokens db2
        = updateMany (onDevice 1%nat "A") (set_revoked 2000) (refreshTokens db1) ++ [N]
        ∧ token N = "t2")
  ∧ length (filter (activeOn 3000 1%nat "A") (refreshTokens db3)) = 1%nat
  ∧ length (filter (activeOn 3000 1%nat "B") (refreshTokens db3)) = 1%nat.
Proof.
  intros reqA reqB db1 db2 db3.
  destruct signIn_revokes_same_device_only as [Hone Hthree]. split.
  - destruct (Hone 2000 "t2" reqA db1) as (u & N & Hu & H); [reflexivity|].
    cbv zeta in H. destruct H as (_ & _ & _ & Hdb & Htok & _).
    assert (u = Sample.alice) as -> by (vm_compute in Hu; by injection Hu as <-).
    exists N. split; [exact Hdb|exact Htok].
  - destruct (Hthree 1000 2000 3000 "t1" "t2" "t3" reqA reqA reqB (Sample.db []) 3000)
      as (u & Hu & HA & HB); try reflexivity; [done|].
    assert (u = Sample.alice) as -> by (vm_compute in Hu; by injection Hu as <-).
    split; [exact HA|exact HB].
Defined.

(** ** Anomaly detection *)

Lemma detectSuspiciousActivity_true now uid dev coll :
  detectSuspiciousActivity now uid dev coll = true
  ↔ (5 < length (activeTokens now uid coll))%nat
    ∨ (3 < size (uniqueDevices now uid coll))%nat.
Proof.
  unfold detectSuspiciousActivity.
  destruct (bool_decide_reflect (5 < length (activeTokens now uid coll))%nat);
    [by split; [left|]|].
  destruct (bool_decide_reflect (3 < size (uniqueDevices now uid coll))%nat);
    [by split; [right|]|].
  split; [done|]. by intros [?|?].
Qed.

Lemma js_or_default_nonempty a d : d ≠ "" → js_or_default a d ≠ "".
Proof.
  intros Hd. unfold js_or_default. destruct a as [s|]; [|done].
  destruct (String.eqb s "") eqn:E; [done|]. by apply String.eqb_neq in E.
Qed.

Lemma updateMany_set_revoked_tokens (P : RefreshToken → Prop) `{∀ x, Decision (P x)}
    at_ coll :
  token <$> updateMany P (set_revoked at_) coll = token <$> coll.
Proof.
  unfold updateMany. rewrite <- list_fmap_compose.
  apply list_fmap_ext. intros i d _. cbn. by case_decide.
Qed.

(** Valid credentials, a valid platform and an unused secret make the
    sign-in succeed. *)
Lemma signIn_succeeds now rnd req db user :
  validationErrors req = false →
  findOne (withEmail (body_email req)) (users db) = Some user →
  isActive user = true →
  comparePassword user (body_password req) = true →
  platform (getDeviceInfo req) ∈ platforms →
  rnd ≠ "" →
  rnd ∉ token <$> refreshTokens db →
  status (signIn now rnd req db).2 = 200%nat.
Proof.
  intros Hval Hu Hact Hpw Hplat Hrnd Hfresh.
  unfold signIn. rewrite Hval, Hu, Hact, Hpw. cbn [negb].
  unfold create, validates. cbn [token deviceInfo newRefreshToken].
  rewrite bool_decide_eq_true_2.
  - rewrite bool_decide_eq_true_2; [done|].
    by rewrite updateMany_set_revoked_tokens.
  - repeat split; try done; by apply js_or_default_nonempty.
Qed.

(** C5 (as amended). The session created by a sign-in is flagged exactly
    when, in the store as it is before the same-device revocation, the
    user has more than 5 unrevoked unexpired sessions or more than 3
    distinct device ids occur among the user's sessions created in the
    last 60 minutes, revoked or not.  With 6 active sessions it is
    flagged; with 5 it is not flagged unless the rule on recent devices
    fires.  The sign-in answers 200 either way, the flag only decides the
    warning. *)
Theorem signIn_flags_suspicious now rnd req db user :
  validationErrors req = false →
  findOne (withEmail (body_email req)) (users db) = Some user →
  isActive user = true →
  comparePassword user (body_password req) = true →
  platform (getDeviceInfo req) ∈ platforms →
  rnd ≠ "" →
  rnd ∉ token <$> refreshTokens db →
  let active := activeTokens now (user_id user) (refreshTokens db) in
  let devices := uniqueDevices now (user_id user) (refreshTokens db) in
  ∃ N flag,
    refreshTokens (signIn now rnd req db).1
    = updateMany (onDevice (user_id user) (deviceId (getDeviceInfo req)))
        (set_revoked now) (refreshTokens db) ++ [N]
    ∧ token N = rnd
    ∧ suspiciousActivity (securityInfo N) = flag
    ∧ (flag = true ↔ (5 < length active)%nat ∨ (3 < size devices)%nat)
    ∧ (length active = 6%nat → flag = true)
    ∧ (length active = 5%nat → (size devices ≤ 3)%nat → flag = false)
    ∧ (signIn now rnd req db).2
      = respond 200
          (Authenticated "Signed in successfully" (view user)
             {| payload_userId := user_id user; payload_email := email user |} rnd
             (if flag then Some "Suspicious activity detected" else None)).
Proof.
  intros Hval Hu Hact Hpw Hplat Hrnd Hfresh active devices.
  pose proof (signIn_succeeds now rnd req db user Hval Hu Hact Hpw Hplat Hrnd Hfresh) as Hok.
  destruct (signIn_success _ _ _ _ Hok) as (u & Hu' & _ & _ & H). cbv zeta in H.
  destruct H as [_ Heq]. simplify_eq.
  pose proof (detectSuspiciousActivity_true now (user_id user) (getDeviceInfo req)
                (refreshTokens db)) as Hiff.
  fold active devices in Hiff.
  eexists _, (detectSuspiciousActivity now (user_id user) (getDeviceInfo req)
                (refreshTokens db)).
  rewrite Heq. cbn [fst snd refreshTokens].
  split; [reflexivity|]. split; [reflexivity|]. split; [reflexivity|].
  split; [exact Hiff|]. split; [|split; [|reflexivity]].
  - intros H6. apply Hiff. left. lia.
  - intros H5 H3. apply not_true_is_false. rewrite Hiff. lia.
Qed.

Lemma signIn_flags_suspicious_witness :
  ∃ N,
    last (refreshTokens
            (signIn 6000 "t6" (Sample.request None (Some "d6")) Sample.five_devices).1)
    = Some N
    ∧ token N = "t6"
    ∧ (suspiciousActivity (securityInfo N) = true
       ↔ (5 < length (activeTokens 6000 1%nat (refreshTokens Sample.five_devices)))%nat
         ∨ (3 < size (uniqueDevices 6000 1%nat (refreshTokens Sample.five_devices)))%nat).
Proof.
  destruct (signIn_flags_suspicious 6000 "t6" (Sample.request None (Some "d6"))
              Sample.five_devices Sample.alice)
    as (N & flag & Hdb & Htok & Hflag & Hiff & _);
    [reflexivity|reflexivity|reflexivity|reflexivity
    |apply (bool_decide_unpack _); exact I|done|apply (bool_decide_unpack _); exact I|].
  exists N. rewrite Hdb, last_snoc, Hflag.
  split; [reflexivity|split; [exact Htok|exact Hiff]].
Defined.

(** With exactly 5 active sessions the sign-in is flagged all the same
    when they sit on 5 devices used within the hour: five sign-ins from
    five devices, then a sixth. *)
Lemma signIn_five_active_flagged :
  length (activeTokens 6000 1%nat (refreshTokens Sample.five_devices)) = 5%nat
  ∧ size (uniqueDevices 6000 1%nat (refreshTokens Sample.five_devices)) = 5%nat
  ∧ status (signIn 6000 "t6" (Sample.request None (Some "d6")) Sample.five_devices).2
    = 200%nat
  ∧ suspiciousActivity ∘ securityInfo <$>
      last (refreshTokens
              (signIn 6000 "t6" (Sample.request None (Some "d6")) Sample.five_devices).1)
    = Some true
  ∧ json (signIn 6000 "t6" (Sample.request None (Some "d6")) Sample.five_devices).2
    = Authenticated "Signed in successfully" (view Sample.alice)
        {| payload_userId := 1; payload_email := "alice@example.com" |} "t6"
        (Some "Suspicious activity detected").
Proof. vm_compute. split_and!; done. Qed.

(** ** Deactivation *)

Lemma findOne_save_user uid user coll :
  findOne (withId uid) coll = Some user →
  findOne (withId uid) (save_user (toggled user) coll) = Some (toggled user).
Proof.
  unfold findOne, save_user. intros Hf.
  destruct (list_find (withId uid) coll) as [[i y]|] eqn:E; simplify_eq/=.
  induction coll as [|d coll IH] in i, E |- *; [done|].
  cbn in E |- *. destruct (decide (withId uid d)) as [Hd|Hd].
  - simplify_eq. destruct (decide (user_id user = user_id user)); [|done].
    by rewrite decide_True.
  - destruct (list_find (withId uid) coll) as [[j z]|] eqn:E'; simplify_eq/=.
    assert (user_id user = uid) as Hu by (by apply list_find_Some in E' as (_ & ? & _)).
    destruct (decide (user_id d = user_id user)) as [Hdu|Hdu];
      [unfold withId in Hd; congruence|].
    rewrite decide_False by done.
    specialize (IH j eq_refl).
    destruct (list_find (withId uid) (_ <$> coll)) as [[k w]|]; by simplify_eq/=.
Qed.

(** C6. Deactivating a user revokes, in the same operation, every
    unrevoked session of that user (isRevoked, revokedAt = now) and
    modifies no other session, so the user has no active session
    afterwards, whatever their number before (3 in particular);
    re-activating a user leaves the sessions as they are. *)
Theorem toggleUserStatus_cascade now req db user :
  findOne (withId (params_userId req)) (users db) = Some user →
  let uid := params_userId req in
  let db' := (toggleUserStatus now req db).1 in
  status (toggleUserStatus now req db).2 = 200%nat
  ∧ findOne (withId uid) (users db') = Some (toggled user)
  ∧ (isActive user = true →
     (∀ i t, refreshTokens db !! i = Some t →
        (userId t = uid ∧ isRevoked t = false →
         refreshTokens db' !! i = Some (set_revoked now t)
         ∧ isRevoked (set_revoked now t) = true
         ∧ revokedAt (set_revoked now t) = Some now)
        ∧ (¬ (userId t = uid ∧ isRevoked t = false) → refreshTokens db' !! i = Some t))
     ∧ length (refreshTokens db') = length (refreshTokens db)
     ∧ (∀ at_, activeTokens at_ uid (refreshTokens db') = [])
     ∧ (length (activeTokens now uid (refreshTokens db)) = 3%nat →
        length (activeTokens now uid (refreshTokens db')) = 0%nat))
  ∧ (isActive user = false → refreshTokens db' = refreshTokens db).
Proof.
  intros Hu uid db'. subst db'. unfold toggleUserStatus. rewrite Hu. fold uid.
  cbn [fst snd status respond users refreshTokens toggled isActive].
  split; [done|]. split; [by apply findOne_save_user|].
  split.
  - intros ->. cbn [negb].
    assert (∀ at_, activeTokens at_ uid
              (updateMany (unrevokedOf uid) (set_revoked now) (refreshTokens db)) = [])
      as Hnone.
    { intros at_. apply filter_updateMany_nil.
      - intros d _ (_ & Hrev & _). done.
      - intros d Hnot (Hid & Hrev & _). by apply Hnot. }
    split; [|split; [apply updateMany_length|split; [exact Hnone|]]].
    + intros i t Ht. split; intros Hm; rewrite updateMany_lookup, Ht; cbn.
      * by rewrite decide_True.
      * by rewrite decide_False.
    + intros _. by rewrite Hnone.
  - by intros ->.
Qed.

Lemma toggleUserStatus_cascade_witness :
  length (activeTokens 3000 1%nat (refreshTokens Sample.three_sessions)) = 3%nat
  ∧ length (activeTokens 3000 1%nat
              (refreshTokens
                 (toggleUserStatus 3000 (Sample.request None None)
                    Sample.three_sessions).1)) = 0%nat.
Proof.
  destruct (toggleUserStatus_cascade 3000 (Sample.request None None)
              Sample.three_sessions Sample.alice eq_refl) as (_ & _ & Hoff & _).
  destruct (Hoff eq_refl) as (_ & _ & _ & H3).
  split; [reflexivity|]. apply H3. reflexivity.
Defined.

(** ** Logout and session revocation *)



(** C7. Revoking a session that is already revoked writes the record
    again: logout and revokeSession both replace revokedAt, here the
    instant 1000 of the first logout, by the instant of the repeated
    request. *)
Theorem revoking_again_overwrites_revokedAt :
  revokedAt <$> refreshTokens Sample.logged_out = [Some 1000]
  ∧ isRevoked <$> refreshTokens Sample.logged_out = [true]
  ∧ status (logout 2000 (Sample.request (Some "s1") None) Sample.logged_out).2 = 200%nat
  ∧ revokedAt <$>
      refreshTokens (logout 2000 (Sample.request (Some "s1") None) Sample.logged_out).1
    = [Some 2000]
  ∧ (logout 2000 (Sample.request (Some "s1") None) Sample.logged_out).1
    ≠ Sample.logged_out
  ∧ status (revokeSession 3000 (Sample.request None None) Sample.logged_out).2 = 200%nat
  ∧ revokedAt <$>
      refreshTokens (revokeSession 3000 (Sample.request None None) Sample.logged_out).1
    = [Some 3000].
Proof. vm_compute. split_and!; done. Qed.

(** The bulk revocations match unrevoked sessions only: a session that is
    already revoked keeps its record, revokedAt included. *)
Lemma updateMany_unrevoked_keeps_revoked (P : RefreshToken → Prop) `{∀ x, Decision (P x)}
    at_ coll i t :
  (∀ d, P d → isRevoked d = false) →
  coll !! i = Some t → isRevoked t = true →
  updateMany P (set_revoked at_) coll !! i = Some t.
Proof.
  intros HP Ht Hrev. rewrite updateMany_lookup, Ht. cbn.
  rewrite decide_False; [done|]. intros Hp%HP. congruence.
Qed.

(** ** The rotation link *)

Lemma freshId_fresh coll : freshId coll ∉ _id <$> coll.
Proof.
  unfold freshId. intros Hin.
  assert (∀ (l : list nat) x, x ∈ l → (x ≤ foldr Nat.max 0 l)%nat) as Hmax.
  { induction l as [|a l IH]; intros x Hx; [by apply elem_of_nil in Hx|].
    apply elem_of_cons in Hx as [->|Hx]; cbn; [lia|]. specialize (IH x Hx). lia. }
  apply Hmax in Hin. lia.
Qed.

Lemma findOne_lookup {A} (P : A → Prop) `{∀ x, Decision (P x)} (coll : list A) (x : A) :
  findOne P coll = Some x → ∃ i, coll !! i = Some x ∧ P x.
Proof.
  unfold findOne. intros Hf.
  destruct (list_find P coll) as [[i y]|] eqn:E; simplify_eq/=.
  apply list_find_Some in E as (Hi & HP & _). by exists i.
Qed.

(** With distinct identifiers, [save] writes one position. *)
Lemma save_insert doc coll i S :
  NoDup (_id <$> coll) →
  coll !! i = Some S →
  _id doc = _id S →
  save doc coll = <[i := doc]> coll.
Proof.
  intros Hnd Hi Hid. unfold save. apply list_eq. intros j.
  rewrite list_lookup_fmap.
  destruct (decide (i = j)) as [<-|Hij].
  - rewrite list_lookup_insert_eq by (by eapply lookup_lt_Some).
    rewrite Hi. cbn. by rewrite decide_True.
  - rewrite list_lookup_insert_ne by done.
    destruct (coll !! j) as [d|] eqn:Hj; [|done]. cbn.
    rewrite decide_False; [done|]. intros Hd. apply Hij.
    apply (NoDup_lookup (_id <$> coll) i j (_id S)); [done|..].
    + by rewrite list_lookup_fmap, Hi.
    + rewrite list_lookup_fmap, Hj. cbn. congruence.
Qed.

Lemma links_updateMany (P : RefreshToken → Prop) `{∀ x, Decision (P x)} at_ coll :
  replacedByToken <$> updateMany P (set_revoked at_) coll = replacedByToken <$> coll.
Proof.
  unfold updateMany. rewrite <- list_fmap_compose.
  apply list_fmap_ext. intros i d _. cbn. by case_decide.
Qed.

Lemma links_save_set_revoked at_ coll S :
  NoDup (_id <$> coll) → S ∈ coll →
  replacedByToken <$> save (set_revoked at_ S) coll = replacedByToken <$> coll.
Proof.
  intros Hnd [i Hi]%list_elem_of_lookup_1.
  rewrite (save_insert _ _ i S) by done.
  rewrite list_fmap_insert. cbn. apply list_insert_id.
  by rewrite list_lookup_fmap, Hi.
Qed.

(** Every handler rewrites stored sessions in place, keeping their [_id],
    either leaving a session as it is or writing it back revoked, and
    appends at most one session, without a link and under an unused
    [_id]. *)
Lemma handle_rewrites newUser c now rnd req db :
  ∃ g news,
    refreshTokens (handle newUser c now rnd req db).1 = (g <$> refreshTokens db) ++ news
    ∧ (∀ d, _id (g d) = _id d)
    ∧ (∀ d, g d = d ∨ (isRevoked (g d) = true ∧ revokedAt (g d) ≠ None))
    ∧ (news = []
       ∨ ∃ N, news = [N] ∧ _id N = freshId (g <$> refreshTokens db)
              ∧ replacedByToken N = None).
Proof.
  assert (∀ coll : list RefreshToken,
            ∃ g news,
              coll = (g <$> coll) ++ news
              ∧ (∀ d, _id (g d) = _id d)
              ∧ (∀ d, g d = d ∨ (isRevoked (g d) = true ∧ revokedAt (g d) ≠ None))
              ∧ (news = []
                 ∨ ∃ N, news = [N] ∧ _id N = freshId (g <$> coll)
                        ∧ replacedByToken N = None)) as Hstay.
  { intros coll. exists id, []. rewrite list_fmap_id, app_nil_r. by repeat split; auto. }
  assert (∀ (P : RefreshToken → Prop) `{∀ x, Decision (P x)} (coll : list RefreshToken),
            ∃ g news,
              updateMany P (set_revoked now) coll = (g <$> coll) ++ news
              ∧ (∀ d, _id (g d) = _id d)
              ∧ (∀ d, g d = d ∨ (isRevoked (g d) = true ∧ revokedAt (g d) ≠ None))
              ∧ (news = []
                 ∨ ∃ N, news = [N] ∧ _id N = freshId (g <$> coll)
                        ∧ replacedByToken N = None)) as Hmany.
  { intros P HP coll.
    exists (λ d, if decide (P d) then set_revoked now d else d), [].
    rewrite app_nil_r. split; [done|]. split; [|split; [|by left]].
    - intros d. by case_decide.
    - intros d. case_decide; [by right|by left]. }
  assert (∀ doc (coll : list RefreshToken),
            isRevoked doc = true → revokedAt doc ≠ None →
            ∃ g news,
              save doc coll = (g <$> coll) ++ news
              ∧ (∀ d, _id (g d) = _id d)
              ∧ (∀ d, g d = d ∨ (isRevoked (g d) = true ∧ revokedAt (g d) ≠ None))
              ∧ (news = []
                 ∨ ∃ N, news = [N] ∧ _id N = freshId (g <$> coll)
                        ∧ replacedByToken N = None)) as Hsave.
  { intros doc coll Hrev Hat.
    exists (λ d, if decide (_id d = _id doc) then doc else d), [].
    rewrite app_nil_r. split; [done|]. split; [|split; [|by left]].
    - intros d. by case_decide.
    - intros d. case_decide; [by right|by left]. }
  destruct c; cbn [handle].
  - (* signUp *)
    unfold signUp. destruct (validationErrors req); [apply Hstay|].
    destruct (findOne _ (users db)); [apply Hstay|].
    destruct (create _ _ _ _ _ _ _) as [coll'|] eqn:Hc; [|apply Hstay].
    apply create_Some in Hc as [-> _]. cbn [fst refreshTokens].
    exists id, [newRefreshToken (freshId (refreshTokens db)) now
                  (user_id (newUser (freshUserId (users db)) (body_email req)
                              (body_password req) (body_name req)))
                  rnd (getRefreshTokenExpiryDate now) (getDeviceInfo req)
                  (getSecurityInfo now req)].
    rewrite list_fmap_id. split; [done|]. split; [done|]. split; [by left|].
    right. by eexists.
  - (* signIn *)
    unfold signIn. destruct (validationErrors req); [apply Hstay|].
    destruct (findOne _ (users db)) as [u|]; [|apply Hstay].
    destruct (negb (isActive u)); [apply Hstay|].
    destruct (negb (comparePassword u _)); [apply Hstay|].
    destruct (create _ _ _ _ _ _ _) as [coll'|] eqn:Hc; cbn [fst with_tokens refreshTokens];
      [|apply Hmany].
    apply create_Some in Hc as [-> _].
    eexists (λ d, if decide (onDevice (user_id u) (deviceId (getDeviceInfo req)) d)
                  then set_revoked now d else d), [_].
    split; [done|]. split; [|split].
    + intros d. by case_decide.
    + intros d. case_decide; [by right|by left].
    + right. by eexists.
  - (* refreshAccessToken *)
    unfold refreshAccessToken.
    destruct (negb (truthy (body_refreshToken req))); [apply Hstay|].
    destruct (findOne _ (refreshTokens db)) as [S|]; [|apply Hstay].
    case_bool_decide; [apply Hstay|].
    destruct (findOne _ (users db)) as [u|]; [|apply Hstay].
    destruct (negb (isActive u)); [apply Hstay|].
    destruct (create _ _ _ _ _ _ _) as [coll'|] eqn:Hc; cbn [fst with_tokens refreshTokens];
      [|by apply Hsave].
    apply create_Some in Hc as [-> _].
    eexists (λ d, if decide (_id d = _id (mark_replaced now rnd (touch now req S)))
                  then mark_replaced now rnd (touch now req S) else d), [_].
    split; [done|]. split; [|split].
    + intros d. by case_decide.
    + intros d. case_decide; [by right|by left].
    + right. by eexists.
  - (* logout *)
    unfold logout. destruct (negb (truthy (body_refreshToken req))); [apply Hstay|].
    cbn [fst with_tokens refreshTokens].
    destruct (findOne _ (refreshTokens db)) as [S|]; [by apply Hsave|apply Hstay].
  - (* logoutAllDevices *)
    unfold logoutAllDevices. destruct (req_userId req); [apply Hmany|apply Hstay].
  - (* revokeSession *)
    unfold revokeSession. destruct (req_userId req); [|apply Hstay].
    destruct (findOne _ (refreshTokens db)) as [S|]; [by apply Hsave|apply Hstay].
  - (* toggleUserStatus *)
    unfold toggleUserStatus. destruct (findOne _ (users db)) as [u|]; [|apply Hstay].
    cbn [fst refreshTokens]. destruct (negb (isActive (toggled u))); [apply Hmany|apply Hstay].
Qed.

Lemma reachable_invariant newUser db :
  reachable newUser db →
  NoDup (_id <$> refreshTokens db) ∧ Forall linked_revoked (refreshTokens db).
Proof.
  induction 1 as [us|c now rnd req db _ [IHid IHlink]]; [split; [constructor|done]|].
  destruct (handle_rewrites newUser c now rnd req db) as (g & news & -> & Hid & Hg & Hnews).
  assert (_id <$> (g <$> refreshTokens db) = _id <$> refreshTokens db) as Hids.
  { rewrite <- list_fmap_compose. apply list_fmap_ext. intros i d _. apply Hid. }
  assert (Forall linked_revoked (g <$> refreshTokens db)) as Hlinks.
  { apply Forall_fmap. eapply Forall_impl; [exact IHlink|].
    intros d Hd. cbn. destruct (Hg d) as [->|Hrev]; [done|]. by intros _. }
  destruct Hnews as [->|(N & -> & HN & Hlink)].
  - rewrite app_nil_r, Hids. done.
  - split.
    + rewrite fmap_app, Hids. apply NoDup_app. split; [done|]. split; [|apply NoDup_singleton].
      intros x Hx Hx'. apply list_elem_of_singleton in Hx' as ->. cbn in Hx.
      rewrite HN, <- Hids in Hx. by apply freshId_fresh in Hx.
    + apply Forall_app. split; [done|]. apply Forall_singleton. by intros ?.
Qed.

(** C9. replacedByToken is written by the refresh rotation alone: signUp,
    signIn (same-device revocation included), logout, logoutAllDevices,
    revokeSession and toggleUserStatus (the deactivation cascade) leave
    the link of every stored session as it was and create sessions without
    a link; a refresh that answers 200 sets one link, that of the session
    found by the presented secret, to the secret of the successor it
    creates; hence in every database the handlers produce, a session with
    a link is a revoked one. *)
Theorem replacedByToken_only_by_rotation newUser :
  (∀ c now rnd req db,
     c ≠ CallRefresh →
     NoDup (_id <$> refreshTokens db) →
     links (handle newUser c now rnd req db).1 = links db
     ∨ links (handle newUser c now rnd req db).1 = links db ++ [None])
  ∧ (∀ now rnd req db,
       NoDup (_id <$> refreshTokens db) →
       status (refreshAccessToken now rnd req db).2 = 200%nat →
       ∃ i S N,
         refreshTokens db !! i = Some S
         ∧ unrevokedWithToken (body_refreshToken req) S
         ∧ refreshTokens (refreshAccessToken now rnd req db).1
           = <[i := mark_replaced now rnd (touch now req S)]> (refreshTokens db) ++ [N]
         ∧ token N = rnd
         ∧ links (refreshAccessToken now rnd req db).1
           = <[i := Some rnd]> (links db) ++ [None])
  ∧ (∀ db,
       reachable newUser db →
       NoDup (_id <$> refreshTokens db)
       ∧ ∀ t, t ∈ refreshTokens db → replacedByToken t ≠ None →
              isRevoked t = true ∧ revokedAt t ≠ None).
Proof.
  split; [|split].
  - intros c now rnd req db Hc Hnd. unfold links.
    destruct c; [| | done | | | |]; cbn [handle].
    + unfold signUp. destruct (validationErrors req); [by left|].
      destruct (findOne _ (users db)); [by left|].
      destruct (create _ _ _ _ _ _ _) as [coll'|] eqn:Hcr; [|by left].
      apply create_Some in Hcr as [-> _]. right. cbn [fst refreshTokens].
      by rewrite fmap_app.
    + unfold signIn. destruct (validationErrors req); [by left|].
      destruct (findOne _ (users db)) as [u|]; [|by left].
      destruct (negb (isActive u)); [by left|].
      destruct (negb (comparePassword u _)); [by left|].
      destruct (create _ _ _ _ _ _ _) as [coll'|] eqn:Hcr;
        cbn [fst with_tokens refreshTokens].
      * apply create_Some in Hcr as [-> _]. right.
        by rewrite fmap_app, links_updateMany.
      * left. apply links_updateMany.
    + unfold logout. destruct (negb (truthy (body_refreshToken req))); [by left|].
      cbn [fst with_tokens refreshTokens]. left.
      destruct (findOne _ (refreshTokens db)) as [S|] eqn:HS; [|done].
      apply links_save_set_revoked; [done|]. by apply findOne_Some in HS as [? _].
    + unfold logoutAllDevices. destruct (req_userId req); [|by left].
      left. apply links_updateMany.
    + unfold revokeSession. destruct (req_userId req); [|by left].
      destruct (findOne _ (refreshTokens db)) as [S|] eqn:HS; [|by left].
      left. cbn [fst with_tokens refreshTokens].
      apply links_save_set_revoked; [done|]. by apply findOne_Some in HS as [? _].
    + unfold toggleUserStatus. destruct (findOne _ (users db)) as [u|]; [|by left].
      cbn [fst refreshTokens]. left.
      destruct (negb (isActive (toggled u))); [apply links_updateMany|done].
  - intros now rnd req db Hnd Hok.
    destruct (refresh_success _ _ _ _ Hok) as (S & u & _ & HS & _ & _ & _ & H).
    cbv zeta in H. destruct H as [_ Heq].
    apply findOne_lookup in HS as (i & Hi & HP).
    rewrite (save_insert _ _ i S) in Heq by done.
    eexists i, S, _. split; [done|]. split; [done|].
    unfold links. rewrite Heq. cbn [fst refreshTokens].
    split; [reflexivity|]. split; [reflexivity|].
    by rewrite fmap_app, list_fmap_insert.
  - intros db Hreach. destruct (reachable_invariant _ _ Hreach) as [Hnd Hall].
    split; [done|]. intros t Ht. by apply (proj1 (Forall_forall _ _) Hall).
Qed.

Lemma replacedByToken_only_by_rotation_witness :
  (links (logout 2000 (Sample.request (Some "s1") None) Sample.signed_up).1
   = links Sample.signed_up
   ∨ links (logout 2000 (Sample.request (Some "s1") None) Sample.signed_up).1
     = links Sample.signed_up ++ [None])
  ∧ links (refreshAccessToken 1000 "n1" (Sample.request (Some "s1") None)
             Sample.signed_up).1
    = [Some "n1"; None]
  ∧ (∀ t, t ∈ refreshTokens Sample.five_devices → replacedByToken t ≠ None →
          isRevoked t = true ∧ revokedAt t ≠ None).
Proof.
  destruct (replacedByToken_only_by_rotation Sample.newUser) as (Hframe & Hrot & Hinv).
  split; [|split].
  - apply (Hframe CallLogout 2000 "" (Sample.request (Some "s1") None)
             Sample.signed_up); [done|].
    apply (bool_decide_unpack _). exact I.
  - destruct (Hrot 1000 "n1" (Sample.request (Some "s1") None) Sample.signed_up)
      as (i & S & N & Hi & _ & _ & _ & Hlinks);
      [apply (bool_decide_unpack _); exact I|reflexivity|].
    rewrite Hlinks. destruct i as [|i]; [reflexivity|]. by destruct i.
  - apply (Hinv Sample.five_devices).
    do 5 apply (reachable_call Sample.newUser CallSignIn).
    apply reachable_init.
Defined.

(** * Further properties of the handlers *)

(** ** Device and security info of a request *)





(** ** Sign-up *)

Lemma findOne_app_r {A} (P : A → Prop) `{∀ x, Decision (P x)} (l : list A) (x : A) :
  Forall (λ y, ¬ P y) l → P x → findOne P (l ++ [x]) = Some x.
Proof.
  intros Hl Hx. unfold findOne.
  induction l as [|y l IH]; cbn.
  - by rewrite decide_True.
  - apply Forall_cons in Hl as [Hy Hl]. rewrite decide_False by done.
    specialize (IH Hl).
    destruct (list_find P (l ++ [x])) as [[i z]|]; by simplify_eq/=.
Qed.

(** X2. signUp refuses an email that is already registered with 400 and
    changes nothing.  Otherwise it stores the user first and the session
    second: when it answers 201 exactly one user and one session were
    added, the session unrevoked, with usageCount 1, no suspicion flag
    and 30 days to live; when storing the session throws it answers 500,
    the user stays stored without a session, and (the User model keeping
    the email it is given) every later sign-up with that email is refused
    with "User already exists". *)
Theorem signUp_outcomes newUser now rnd req db :
  validationErrors req = false →
  let user :=
    newUser (freshUserId (users db)) (body_email req) (body_password req) (body_name req) in
  let out := signUp newUser now rnd req db in
  (∀ u, findOne (withEmail (body_email req)) (users db) = Some u →
        out = (db, respond 400 (Error "User already exists")))
  ∧ (status out.2 = 201%nat →
     users out.1 = users db ++ [user]
     ∧ ∃ N, refreshTokens out.1 = refreshTokens db ++ [N]
            ∧ userId N = user_id user ∧ token N = rnd
            ∧ deviceInfo N = getDeviceInfo req
            ∧ isRevoked N = false ∧ revokedAt N = None ∧ replacedByToken N = None
            ∧ usageCount (securityInfo N) = 1
            ∧ suspiciousActivity (securityInfo N) = false
            ∧ createdAt N = now
            ∧ expiresAt N = now + 2592000000)
  ∧ (status out.2 = 500%nat →
     users out.1 = users db ++ [user]
     ∧ refreshTokens out.1 = refreshTokens db
     ∧ (email user = body_email req →
        ∀ now' rnd' req',
          validationErrors req' = false → body_email req' = body_email req →
          signUp newUser now' rnd' req' out.1
          = (out.1, respond 400 (Error "User already exists")))).
Proof.
  intros Hval user out.
  assert (out =
          match findOne (withEmail (body_email req)) (users db) with
          | Some _ => (db, respond 400 (Error "User already exists"))
          | None =>
            match create now (user_id user) rnd (getRefreshTokenExpiryDate now)
                    (getDeviceInfo req) (getSecurityInfo now req) (refreshTokens db) with
            | None =>
              ({| users := users db ++ [user]; refreshTokens := refreshTokens db |},
               respond 500 (Error "Failed to create user"))
            | Some coll' =>
              ({| users := users db ++ [user]; refreshTokens := coll' |},
               respond 201
                 (Authenticated "User created successfully" (view user)
                    {| payload_userId := user_id user; payload_email := email user |}
                    rnd None))
            end
          end) as Hout.
  { subst out. unfold signUp. by rewrite Hval. }
  clearbody out. subst out.
  destruct (findOne _ (users db)) as [u|] eqn:Hu.
  - split; [done|]. split; by intros.
  - split; [done|].
    destruct (create _ _ _ _ _ _ _) as [coll'|] eqn:Hc; cbn [fst snd status respond].
    + split; [|done]. intros _. split; [done|].
      apply create_Some in Hc as [-> _]. by eexists.
    + split; [done|]. intros _. split; [done|]. split; [done|].
      intros He now' rnd' req' Hval' He'. unfold signUp. rewrite Hval'.
      cbn [users]. rewrite He', findOne_app_r; [done| |done].
      by apply (proj1 (findOne_None _ _)).
Qed.

Lemma signUp_outcomes_witness :
  users (signUp Sample.newUser 0 "s1" (Sample.request None (Some "d1")) Scenario.nobody).1
  = [Sample.alice]
  ∧ refreshTokens
      (signUp Sample.newUser 0 "s1" (Scenario.desktop_request (Some "d1")) Scenario.nobody).1
    = []
  ∧ signUp Sample.newUser 1000 "s2" (Sample.request None (Some "d1"))
      (signUp Sample.newUser 0 "s1" (Scenario.desktop_request (Some "d1")) Scenario.nobody).1
    = ((signUp Sample.newUser 0 "s1" (Scenario.desktop_request (Some "d1"))
          Scenario.nobody).1,
       respond 400 (Error "User already exists")).
Proof.
  destruct (signUp_outcomes Sample.newUser 0 "s1" (Sample.request None (Some "d1"))
              Scenario.nobody eq_refl) as (_ & Hok & _).
  destruct (signUp_outcomes Sample.newUser 0 "s1" (Scenario.desktop_request (Some "d1"))
              Scenario.nobody eq_refl) as (_ & _ & Hfail).
  destruct (Hok eq_refl) as [Hus _]. destruct (Hfail eq_refl) as (_ & Hcoll & Hretry).
  split; [exact Hus|]. split; [exact Hcoll|]. by apply Hretry.
Defined.

(** ** Sign-in that cannot store its session *)

(** X3. The platform of the request is not checked before the store
    rejects the new session: a sign-in with valid credentials and a
    platform outside ios/android/web answers 500 "Failed to sign in", and
    by then the user's unrevoked sessions on that device are revoked, so
    no session of the user on the device stays active and no token is
    issued. *)
Theorem signIn_invalid_platform now rnd req db user :
  validationErrors req = false →
  findOne (withEmail (body_email req)) (users db) = Some user →
  isActive user = true →
  comparePassword user (body_password req) = true →
  platform (getDeviceInfo req) ∉ platforms →
  signIn now rnd req db
  = (with_tokens db
       (updateMany (onDevice (user_id user) (deviceId (getDeviceInfo req)))
          (set_revoked now) (refreshTokens db)),
     respond 500 (Error "Failed to sign in"))
  ∧ ∀ at_,
      filter (activeOn at_ (user_id user) (deviceId (getDeviceInfo req)))
        (refreshTokens (signIn now rnd req db).1) = [].
Proof.
  intros Hval Hu Hact Hpw Hplat.
  assert (signIn now rnd req db
          = (with_tokens db
               (updateMany (onDevice (user_id user) (deviceId (getDeviceInfo req)))
                  (set_revoked now) (refreshTokens db)),
             respond 500 (Error "Failed to sign in"))) as Heq.
  { unfold signIn. rewrite Hval, Hu, Hact, Hpw. cbn [negb].
    unfold create, validates. cbn [token deviceInfo newRefreshToken].
    rewrite bool_decide_eq_false_2; [done|]. by intros (_ & _ & _ & ?). }
  split; [exact Heq|]. intros at_. rewrite Heq. cbn [fst with_tokens refreshTokens].
  apply filter_updateMany_nil.
  - intros d _ [[_ [Hrev _]] _]. done.
  - intros d Hnot [[Hid [Hrev _]] Hdev]. apply Hnot. by repeat split.
Qed.

Lemma signIn_invalid_platform_witness :
  status (signIn 1000 "t2" (Scenario.desktop_request (Some "d1")) Sample.signed_up).2
  = 500%nat
  ∧ isRevoked <$>
      refreshTokens
        (signIn 1000 "t2" (Scenario.desktop_request (Some "d1")) Sample.signed_up).1
    = [true].
Proof.
  destruct (signIn_invalid_platform 1000 "t2" (Scenario.desktop_request (Some "d1"))
              Sample.signed_up Sample.alice) as [Heq _];
    [reflexivity|reflexivity|reflexivity|reflexivity
    |apply (bool_decide_unpack _); exact I|].
  rewrite Heq. split; reflexivity.
Defined.

(** ** Logout from all devices *)

Lemma updateMany_none {A} (P : A → Prop) `{∀ x, Decision (P x)} (f : A → A)
    (coll : list A) :
  filter P coll = [] → updateMany P f coll = coll.
Proof.
  intros Hnone. unfold updateMany.
  rewrite <- (list_fmap_id coll) at 2. apply list_fmap_ext.
  intros i d Hd%list_elem_of_lookup_2. cbn.
  rewrite decide_False; [done|]. intros HP.
  by apply (filter_nil_not_elem_of P coll d).
Qed.

(** X4. logoutAllDevices revokes every unrevoked session of the caller at
    [now], expired ones included, and reports their number; the records
    of other users' sessions and of sessions already revoked are kept,
    revokedAt included; repeated, it reports 0 and changes nothing. *)
Theorem logoutAllDevices_revokes_all now req db uid :
  req_userId req = Some uid →
  (logoutAllDevices now req db).2
  = respond 200
      (RevokedCount "Logged out from all devices successfully"
         (length (filter (unrevokedOf uid) (refreshTokens db))))
  ∧ filter (unrevokedOf uid) (refreshTokens (logoutAllDevices now req db).1) = []
  ∧ (∀ at_, activeTokens at_ uid (refreshTokens (logoutAllDevices now req db).1) = [])
  ∧ (∀ i t, refreshTokens db !! i = Some t →
       refreshTokens (logoutAllDevices now req db).1 !! i
       = Some (if decide (userId t = uid ∧ isRevoked t = false)
               then set_revoked now t else t))
  ∧ ∀ now',
      logoutAllDevices now' req (logoutAllDevices now req db).1
      = ((logoutAllDevices now req db).1,
         respond 200 (RevokedCount "Logged out from all devices successfully" 0)).
Proof.
  intros Hreq. unfold logoutAllDevices at 1 2 3 4. rewrite Hreq.
  cbn [fst snd with_tokens refreshTokens].
  assert (filter (unrevokedOf uid)
            (updateMany (unrevokedOf uid) (set_revoked now) (refreshTokens db)) = [])
    as Hnone.
  { apply filter_updateMany_nil; [by intros d _ [_ Hrev]|done]. }
  split; [done|]. split; [exact Hnone|]. split; [|split].
  - intros at_. apply filter_updateMany_nil.
    + by intros d _ (_ & Hrev & _).
    + intros d Hnot (Hid & Hrev & _). by apply Hnot.
  - intros i t Ht. rewrite updateMany_lookup, Ht. done.
  - intros now'. unfold logoutAllDevices. rewrite Hreq.
    cbn [fst with_tokens refreshTokens users].
    unfold modifiedCount. rewrite Hnone.
    by rewrite (updateMany_none (unrevokedOf uid) (set_revoked now') _ Hnone).
Qed.

Lemma logoutAllDevices_revokes_all_witness :
  (logoutAllDevices 3000 (Sample.request None None) Sample.three_sessions).2
  = respond 200 (RevokedCount "Logged out from all devices successfully" 3)
  ∧ logoutAllDevices 4000 (Sample.request None None)
      (logoutAllDevices 3000 (Sample.request None None) Sample.three_sessions).1
    = ((logoutAllDevices 3000 (Sample.request None None) Sample.three_sessions).1,
       respond 200 (RevokedCount "Logged out from all devices successfully" 0)).
Proof.
  destruct (logoutAllDevices_revokes_all 3000 (Sample.request None None)
              Sample.three_sessions 1%nat eq_refl) as (Hres & _ & _ & _ & Hagain).
  split; [exact Hres|apply Hagain].
Defined.

(** ** Revoking one session *)

(** X5. revokeSession acts on the caller's own sessions only: when the
    session of the given id is missing or belongs to another user it
    answers 404 and changes nothing; when it is the caller's, that one
    record is written back revoked at [now] and every other session is
    left as it is. *)
Theorem revokeSession_owner_only now req db uid :
  req_userId req = Some uid →
  NoDup (_id <$> refreshTokens db) →
  ((∀ t, t ∈ refreshTokens db → _id t = params_sessionId req → userId t ≠ uid) →
   revokeSession now req db = (db, respond 404 (Error "Session not found")))
  ∧ (∀ i t,
       refreshTokens db !! i = Some t →
       _id t = params_sessionId req →
       userId t = uid →
       revokeSession now req db
       = (with_tokens db (<[i := set_revoked now t]> (refreshTokens db)),
          respond 200 (Message "Session revoked successfully"))).
Proof.
  intros Hreq Hnd. unfold revokeSession. rewrite Hreq. split.
  - intros Hother.
    destruct (findOne _ (refreshTokens db)) as [S|] eqn:HS; [|done].
    apply findOne_Some in HS as [Hin [Hid Hu]]. by destruct (Hother S Hin Hid).
  - intros i t Hi Hid Hu.
    destruct (findOne _ (refreshTokens db)) as [S|] eqn:HS.
    + apply findOne_Some in HS as [Hin [HSid _]].
      assert (S = t) as ->.
      { apply (NoDup_fmap_elem _id (refreshTokens db)); try done; [|congruence].
        by eapply list_elem_of_lookup_2. }
      by rewrite (save_insert _ _ i t).
    + apply findOne_None in HS.
      apply (proj1 (Forall_forall _ _)) with (x := t) in HS;
        [by destruct HS|by eapply list_elem_of_lookup_2].
Qed.

Lemma revokeSession_owner_only_witness :
  revokeSession 1000 (Scenario.request_of (Some 2%nat) 1 0 None) Scenario.two_users
  = (Scenario.two_users, respond 404 (Error "Session not found"))
  ∧ isRevoked <$>
      refreshTokens
        (revokeSession 1000 (Scenario.request_of (Some 1%nat) 1 0 None)
           Scenario.two_users).1
    = [true; false].
Proof.
  destruct (revokeSession_owner_only 1000 (Scenario.request_of (Some 2%nat) 1 0 None)
              Scenario.two_users 2%nat eq_refl) as [Hother _];
    [apply (bool_decide_unpack _); exact I|].
  destruct (revokeSession_owner_only 1000 (Scenario.request_of (Some 1%nat) 1 0 None)
              Scenario.two_users 1%nat eq_refl) as [_ Hown];
    [apply (bool_decide_unpack _); exact I|].
  split.
  - apply Hother. intros t Ht Hid Hu.
    vm_compute in Ht. apply elem_of_cons in Ht as [->|Ht]; [done|].
    apply elem_of_cons in Ht as [->|Ht]; [done|]. by apply elem_of_nil in Ht.
  - by rewrite (Hown 0%nat Sample.stored).
Defined.

(** ** Rotation chains *)

(** X6. Single use, one request after the other: once a refresh has
    answered 200, presenting the same secret again is answered
    InvalidRefreshToken and changes nothing. *)
Theorem refresh_old_secret_rejected now rnd req db now' rnd' :
  NoDup (token <$> refreshTokens db) →
  NoDup (_id <$> refreshTokens db) →
  status (refreshAccessToken now rnd req db).2 = 200%nat →
  refreshAccessToken now' rnd' req (refreshAccessToken now rnd req db).1
  = ((refreshAccessToken now rnd req db).1, InvalidRefreshToken).
Proof. intros Htok Hid Hok. by apply refresh_replay_rejected. Qed.

Lemma refresh_old_secret_rejected_witness :
  (refreshAccessToken 2000 "n2" (Sample.request (Some "s1") None)
     (refreshAccessToken 1000 "n1" (Sample.request (Some "s1") None) Sample.signed_up).1).2
  = InvalidRefreshToken.
Proof.
  rewrite (refresh_old_secret_rejected 1000 "n1" (Sample.request (Some "s1") None)
             Sample.signed_up 2000 "n2");
    [reflexivity|apply (bool_decide_unpack _); exact I
    |apply (bool_decide_unpack _); exact I|reflexivity].
Defined.




(** ** Invariants of the session collection *)

(** What a handler does to the collection, in full: stored sessions are
    kept or written back revoked at [now], and at most one session is
    created, through [create]. *)
Lemma handle_shape newUser c now rnd req db :
  NoDup (_id <$> refreshTokens db) →
  ∃ g news,
    refreshTokens (handle newUser c now rnd req db).1 = (g <$> refreshTokens db) ++ news
    ∧ (∀ d, d ∈ refreshTokens db → g d = d ∨ revoked_copy now d (g d))
    ∧ (news = []
       ∨ ∃ uid dev sec,
           create now uid rnd (getRefreshTokenExpiryDate now) dev sec
             (g <$> refreshTokens db)
           = Some ((g <$> refreshTokens db) ++ news)).
Proof.
  intros Hnd.
  assert (∀ coll : list RefreshToken,
            ∃ g news,
              coll = (g <$> coll) ++ news
              ∧ (∀ d, d ∈ coll → g d = d ∨ revoked_copy now d (g d))
              ∧ (news = []
                 ∨ ∃ uid dev sec,
                     create now uid rnd (getRefreshTokenExpiryDate now) dev sec (g <$> coll)
                     = Some ((g <$> coll) ++ news))) as Hstay.
  { intros coll. exists id, []. rewrite list_fmap_id, app_nil_r. by repeat split; auto. }
  assert (∀ (P : RefreshToken → Prop) `{∀ x, Decision (P x)} (coll : list RefreshToken),
            ∃ g news,
              updateMany P (set_revoked now) coll = (g <$> coll) ++ news
              ∧ (∀ d, d ∈ coll → g d = d ∨ revoked_copy now d (g d))
              ∧ (news = []
                 ∨ ∃ uid dev sec,
                     create now uid rnd (getRefreshTokenExpiryDate now) dev sec (g <$> coll)
                     = Some ((g <$> coll) ++ news))) as Hmany.
  { intros P HP coll.
    exists (λ d, if decide (P d) then set_revoked now d else d), [].
    rewrite app_nil_r. split; [done|]. split; [|by left].
    intros d _. case_decide; [right|by left]. by repeat split. }
  assert (∀ doc S,
            S ∈ refreshTokens db → revoked_copy now S doc →
            ∃ g news,
              save doc (refreshTokens db) = (g <$> refreshTokens db) ++ news
              ∧ (∀ d, d ∈ refreshTokens db → g d = d ∨ revoked_copy now d (g d))
              ∧ (news = []
                 ∨ ∃ uid dev sec,
                     create now uid rnd (getRefreshTokenExpiryDate now) dev sec
                       (g <$> refreshTokens db)
                     = Some ((g <$> refreshTokens db) ++ news))) as Hsave.
  { intros doc S HS Hcopy.
    exists (λ d, if decide (_id d = _id doc) then doc else d), [].
    rewrite app_nil_r. split; [done|]. split; [|by left].
    intros d Hd. case_decide as Hid; [right|by left].
    assert (d = S) as -> ; [|done].
    apply (NoDup_fmap_elem _id (refreshTokens db)); try done.
    destruct Hcopy as [? _]. congruence. }
  destruct c; cbn [handle].
  - unfold signUp. destruct (validationErrors req); [apply Hstay|].
    destruct (findOne _ (users db)); [apply Hstay|].
    destruct (create _ _ _ _ _ _ _) as [coll'|] eqn:Hc;
      cbn [fst refreshTokens]; [|apply Hstay].
    apply create_Some in Hc as Hc'. destruct Hc' as [-> _].
    eexists id, [_]. rewrite list_fmap_id. split; [done|]. split; [by left|].
    right. eexists _, _, _. exact Hc.
  - unfold signIn. destruct (validationErrors req); [apply Hstay|].
    destruct (findOne _ (users db)) as [u|]; [|apply Hstay].
    destruct (negb (isActive u)); [apply Hstay|].
    destruct (negb (comparePassword u _)); [apply Hstay|].
    destruct (create _ _ _ _ _ _ _) as [coll'|] eqn:Hc; cbn [fst with_tokens refreshTokens];
      [|apply Hmany].
    apply create_Some in Hc as Hc'. destruct Hc' as [-> _].
    eexists (λ d, if decide (onDevice (user_id u) (deviceId (getDeviceInfo req)) d)
                  then set_revoked now d else d), [_].
    split; [done|]. split.
    + intros d _. case_decide; [right|by left]. by repeat split.
    + right. eexists _, _, _. exact Hc.
  - unfold refreshAccessToken.
    destruct (negb (truthy (body_refreshToken req))); [apply Hstay|].
    destruct (findOne _ (refreshTokens db)) as [S|] eqn:HS; [|apply Hstay].
    apply findOne_Some in HS as [HSin _].
    case_bool_decide; [apply Hstay|].
    destruct (findOne _ (users db)) as [u|]; [|apply Hstay].
    destruct (negb (isActive u)); [apply Hstay|].
    destruct (create _ _ _ _ _ _ _) as [coll'|] eqn:Hc; cbn [fst with_tokens refreshTokens];
      [|by apply (Hsave _ S)].
    apply create_Some in Hc as Hc'. destruct Hc' as [-> _].
    eexists (λ d, if decide (_id d = _id (mark_replaced now rnd (touch now req S)))
                  then mark_replaced now rnd (touch now req S) else d), [_].
    split; [done|]. split.
    + intros d Hd. case_decide as Hid; [right|by left].
      assert (d = S) as ->; [|done].
      by apply (NoDup_fmap_elem _id (refreshTokens db)).
    + right. eexists _, _, _. exact Hc.
  - unfold logout. destruct (negb (truthy (body_refreshToken req))); [apply Hstay|].
    cbn [fst with_tokens refreshTokens].
    destruct (findOne _ (refreshTokens db)) as [S|] eqn:HS; [|apply Hstay].
    apply findOne_Some in HS as [HSin _]. by apply (Hsave _ S).
  - unfold logoutAllDevices. destruct (req_userId req); [apply Hmany|apply Hstay].
  - unfold revokeSession. destruct (req_userId req); [|apply Hstay].
    destruct (findOne _ (refreshTokens db)) as [S|] eqn:HS; [|apply Hstay].
    apply findOne_Some in HS as [HSin _]. by apply (Hsave _ S).
  - unfold toggleUserStatus. destruct (findOne _ (users db)) as [u|]; [|apply Hstay].
    cbn [fst refreshTokens]. destruct (negb (isActive (toggled u))); [apply Hmany|apply Hstay].
Qed.

Lemma reachable_well_formed newUser db :
  reachable newUser db →
  NoDup (token <$> refreshTokens db) ∧ Forall well_formed (refreshTokens db).
Proof.
  induction 1 as [us|c now rnd req db Hreach [IHtok IHwf]]; [split; [constructor|done]|].
  destruct (reachable_invariant _ _ Hreach) as [Hnd _].
  destruct (handle_shape newUser c now rnd req db Hnd) as (g & news & -> & Hg & Hnews).
  assert (token <$> (g <$> refreshTokens db) = token <$> refreshTokens db) as Htoks.
  { rewrite <- list_fmap_compose. apply list_fmap_ext.
    intros i d Hd%list_elem_of_lookup_2. cbn.
    destruct (Hg d Hd) as [->|(_ & _ & ? & _)]; done. }
  assert (Forall well_formed (g <$> refreshTokens db)) as Hwf.
  { apply Forall_fmap, Forall_forall. intros d Hd. cbn.
    pose proof (proj1 (Forall_forall _ _) IHwf d Hd) as (Hrev & Hval).
    destruct (Hg d Hd) as [->|(_ & _ & Htok & _ & _ & Hdev & Hr & Hat)]; [done|].
    split.
    - rewrite Hr, Hat. done.
    - revert Hval. unfold validates. by rewrite Htok, Hdev. }
  destruct Hnews as [->|(uid & dev & sec & Hc)].
  - rewrite app_nil_r, Htoks. done.
  - apply create_Some in Hc as Hc'. destruct Hc' as [Hnews Hfresh].
    apply app_inv_head in Hnews as ->. split.
    + rewrite fmap_app, Htoks. apply NoDup_app. split; [done|].
      split; [|apply NoDup_singleton].
      intros x Hx Hx'%list_elem_of_singleton. subst x. apply Hfresh. by rewrite Htoks.
    + apply Forall_app. split; [done|]. apply Forall_singleton.
      split; [done|].
      revert Hc. unfold create. by destruct (validates _).
Qed.

(** X8. Across every database the handlers produce from one without
    sessions, no two stored sessions carry the same refresh secret, so a
    presented secret names at most one session. *)
Theorem reachable_unique_secrets newUser db :
  reachable newUser db →
  NoDup (token <$> refreshTokens db)
  ∧ ∀ i j a b,
      refreshTokens db !! i = Some a → refreshTokens db !! j = Some b →
      token a = token b → i = j.
Proof.
  intros Hreach. destruct (reachable_well_formed _ _ Hreach) as [Htok _].
  split; [done|]. intros i j a b Hi Hj Hab.
  apply (NoDup_lookup (token <$> refreshTokens db) i j (token a)); [done|..].
  - by rewrite list_lookup_fmap, Hi.
  - rewrite list_lookup_fmap, Hj. cbn. by rewrite Hab.
Qed.

Lemma reachable_unique_secrets_witness :
  NoDup (token <$> refreshTokens Sample.five_devices).
Proof.
  apply (reachable_unique_secrets Sample.newUser Sample.five_devices).
  do 5 apply (reachable_call Sample.newUser CallSignIn).
  apply reachable_init.
Defined.

(** X9. With requests handled one after the other, in every database the
    handlers produce from one without sessions, each stored session has
    revokedAt set exactly when it is revoked, and keeps a non-empty
    secret, deviceId and deviceName and a platform among ios, android and
    web. *)
Theorem reachable_records newUser db :
  reachable newUser db →
  ∀ t, t ∈ refreshTokens db →
    (isRevoked t = true ↔ revokedAt t ≠ None)
    ∧ token t ≠ ""
    ∧ deviceId (deviceInfo t) ≠ ""
    ∧ deviceName (deviceInfo t) ≠ ""
    ∧ platform (deviceInfo t) ∈ platforms.
Proof.
  intros Hreach t Ht. destruct (reachable_well_formed _ _ Hreach) as [_ Hwf].
  pose proof (proj1 (Forall_forall _ _) Hwf t Ht) as (Hrev & Hval).
  split; [done|].
  unfold validates in Hval. by apply bool_decide_eq_true in Hval.
Qed.

Lemma reachable_records_witness :
  Forall (λ t,
    (isRevoked t = true ↔ revokedAt t ≠ None)
    ∧ token t ≠ ""
    ∧ deviceId (deviceInfo t) ≠ ""
    ∧ deviceName (deviceInfo t) ≠ ""
    ∧ platform (deviceInfo t) ∈ platforms) (refreshTokens Sample.logged_out).
Proof.
  apply Forall_forall.
  apply (reachable_records Sample.newUser Sample.logged_out).
  apply (reachable_call Sample.newUser CallLogout 1000 "").
  apply (reachable_call Sample.newUser CallSignUp 0 "s1" (Sample.request None (Some "d1"))
           {| users := []; refreshTokens := [] |}).
  apply reachable_init.
Defined.

(** ** Deactivated users *)

Lemma findOne_save_user_by (P : User → Prop) `{∀ x, Decision (P x)} user user' coll :
  findOne P coll = Some user →
  user_id user' = user_id user →
  P user' →
  findOne P (save_user user' coll) = Some user'.
Proof.
  unfold findOne, save_user. intros Hf Hid HP.
  destruct (list_find P coll) as [[i y]|] eqn:E; simplify_eq/=.
  induction coll as [|d coll IH] in i, E |- *; [done|].
  cbn in E |- *. destruct (decide (P d)) as [Hd|Hd].
  - simplify_eq. rewrite (decide_True (P := user_id user = user_id user')) by done.
    by rewrite decide_True.
  - destruct (list_find P coll) as [[j z]|] eqn:E'; simplify_eq/=.
    specialize (IH j eq_refl).
    destruct (decide (user_id d = user_id user')).
    + by rewrite decide_True.
    + rewrite decide_False by done.
      destruct (list_find P (_ <$> coll)) as [[k w]|]; by simplify_eq/=.
Qed.






(** ** The access-token middleware *)

Lemma split_space_spaceless s : spaceless s → split_space s = [s].
Proof.
  induction s as [|c s IH]; [done|]. intros [Hc Hs]. cbn [split_space].
  destruct (Ascii.eqb_spec c " "); [done|]. by rewrite IH.
Qed.

Lemma split_space_app s rest :
  spaceless s → split_space (s +:+ " " +:+ rest) = s :: split_space rest.
Proof.
  induction s as [|c s IH]; [done|]. intros [Hc Hs].
  change (String c s +:+ " " +:+ rest) with (String c (s +:+ " " +:+ rest)).
  cbn [split_space].
  destruct (Ascii.eqb_spec c " "); [done|]. by rewrite IH.
Qed.

Lemma append_space_nonempty s rest : String.eqb (s +:+ " " +:+ rest) "" = false.
Proof. by destruct s. Qed.

(** X12. authenticateToken takes the second space-separated piece of the
    authorization header as the token and never looks at the first: with
    any scheme word in place of "Bearer", and with anything after a
    further space, the outcome is that of verifying the token (403 when
    verification throws); a missing header, a header without a space and
    two spaces after the scheme are answered 401 without verifying
    anything. *)
Theorem authenticateToken_header verify scheme tok rest :
  spaceless scheme →
  spaceless tok →
  tok ≠ "" →
  let outcome :=
    match verify tok with
    | Some decoded => inr decoded
    | None => inl (reply 403 (Failure "Invalid or expired token"))
    end in
  authenticateToken verify (Some (scheme +:+ " " +:+ tok)) = outcome
  ∧ authenticateToken verify (Some (scheme +:+ " " +:+ tok +:+ " " +:+ rest)) = outcome
  ∧ authenticateToken verify None = inl (reply 401 (Failure "Access token required"))
  ∧ authenticateToken verify (Some scheme)
    = inl (reply 401 (Failure "Access token required"))
  ∧ authenticateToken verify (Some (scheme +:+ " " +:+ " " +:+ tok))
    = inl (reply 401 (Failure "Access token required")).
Proof.
  intros Hscheme Htok Hne outcome.
  assert (truthy (Some tok) = true) as Htruthy.
  { cbn. by apply negb_true_iff, String.eqb_neq. }
  unfold authenticateToken. split_and!.
  - rewrite append_space_nonempty, split_space_app by done.
    rewrite split_space_spaceless by done. cbn [lookup list_lookup].
    by rewrite Htruthy.
  - rewrite append_space_nonempty, !split_space_app by done.
    cbn [lookup list_lookup]. by rewrite Htruthy.
  - done.
  - destruct (String.eqb scheme ""); [done|].
    by rewrite split_space_spaceless.
  - rewrite append_space_nonempty, split_space_app by done.
    by change (split_space (" " +:+ tok)) with ("" :: split_space tok).
Qed.

Lemma authenticateToken_header_witness :
  authenticateToken (λ t, if String.eqb t "tok" then Some (Build_TokenPayload 1 "a") else None)
    (Some "Basic tok")
  = inr (Build_TokenPayload 1 "a")
  ∧ authenticateToken (λ t, if String.eqb t "tok" then Some (Build_TokenPayload 1 "a") else None)
      (Some "Bearer  tok")
    = inl (reply 401 (Failure "Access token required")).
Proof.
  destruct (authenticateToken_header
              (λ t, if String.eqb t "tok" then Some (Build_TokenPayload 1 "a") else None)
              "Basic" "tok" "")
    as (Hany & _); [by vm_compute|by vm_compute|done|].
  destruct (authenticateToken_header
              (λ t, if String.eqb t "tok" then Some (Build_TokenPayload 1 "a") else None)
              "Bearer" "tok" "")
    as (_ & _ & _ & _ & Htwo); [by vm_compute|by vm_compute|done|].
  split; [exact Hany|exact Htwo].
Defined.

(** ** Admin routes *)

(** X13. The admin routes change nothing for a caller who is not an
    active admin: whenever the access token does not verify to a stored
    user with role "admin" and isActive, toggle-status and promote answer
    with the refusal of a middleware (401, 403 or 404) and leave the
    database as it is. *)
Theorem admin_routes_need_active_admin verify authorization now req db :
  (∀ decoded u,
     authenticateToken verify authorization = inr decoded →
     findOne (withId (payload_userId decoded)) (users db) = Some u →
     role u ≠ "admin" ∨ isActive u = false) →
  ∃ res,
    patch_toggle_status verify authorization now req db = (db, inl res)
    ∧ patch_promote verify authorization req db = (db, res)
    ∧ (reply_status res = 401%nat ∨ reply_status res = 403%nat
       ∨ reply_status res = 404%nat).
Proof.
  intros Hno. unfold patch_toggle_status, patch_promote, admin_guard.
  destruct (authenticateToken verify authorization) as [res|decoded] eqn:Hauth.
  - exists res. split; [done|]. split; [done|].
    revert Hauth. unfold authenticateToken.
    destruct (negb (truthy _)); [intros [= <-]; by left|].
    destruct (_ ≫= verify); [done|]. intros [= <-]. right. by left.
  - unfold requireAdmin. cbn [req_userId with_userId].
    destruct (findOne _ (users db)) as [u|] eqn:Hu.
    + destruct (Hno decoded u eq_refl Hu) as [Hrole|Hact].
      * apply String.eqb_neq in Hrole. rewrite Hrole. cbn [negb].
        eexists. split; [done|]. split; [done|]. right. by left.
      * destruct (negb (role u =? "admin")%string);
          [eexists; split; [done|]; split; [done|]; right; by left|].
        rewrite Hact. cbn [negb].
        eexists. split; [done|]. split; [done|]. right. by left.
    + eexists. split; [done|]. split; [done|]. right. by right.
Qed.

Lemma admin_routes_need_active_admin_witness :
  ∃ res,
    patch_toggle_status (λ t, if String.eqb t "tok" then Some (Build_TokenPayload 1 "a") else None)
      (Some "Bearer tok") 3000 (Sample.request None None) Sample.three_sessions
    = (Sample.three_sessions, inl res)
    ∧ reply_status res = 403%nat.
Proof.
  destruct (admin_routes_need_active_admin
              (λ t, if String.eqb t "tok" then Some (Build_TokenPayload 1 "a") else None)
              (Some "Bearer tok") 3000 (Sample.request None None) Sample.three_sessions)
    as (res & Htoggle & _ & _).
  - intros decoded u Hauth Hu. left.
    vm_compute in Hauth. injection Hauth as <-.
    vm_compute in Hu. by injection Hu as <-.
  - exists res. split; [exact Htoggle|].
    assert ((Sample.three_sessions, inl res)
            = (Sample.three_sessions,
               (inl (reply 403 (Failure "Forbidden: Admin access required"))
                : Reply + Response))) as Hpair by (rewrite <- Htoggle; reflexivity).
    injection Hpair as Hres. by rewrite Hres.
Defined.



(** X15. promoteToAdmin sets the role of the user it finds to "admin" and
    nothing else: sessions, the other users and the isActive flag stay as
    they are, so requireAdmin lets the promoted user through exactly when
    the account is active; promoting again changes nothing more, and an
    unknown id is answered 404 with the database unchanged. *)
Theorem promoteToAdmin_grants_role req db :
  (findOne (withId (params_userId req)) (users db) = None →
   promoteToAdmin req db = (db, reply 404 (Failure "User not found")))
  ∧ ∀ user,
      findOne (withId (params_userId req)) (users db) = Some user →
      refreshTokens (promoteToAdmin req db).1 = refreshTokens db
      ∧ users (promoteToAdmin req db).1 = save_user (promoted user) (users db)
      ∧ findOne (withId (params_userId req)) (users (promoteToAdmin req db).1)
        = Some (promoted user)
      ∧ isActive (promoted user) = isActive user
      ∧ (∀ r, req_userId r = Some (params_userId req) →
              (requireAdmin r (promoteToAdmin req db).1 = Next ↔ isActive user = true))
      ∧ users (promoteToAdmin req (promoteToAdmin req db).1).1
        = users (promoteToAdmin req db).1.
Proof.
  unfold promoteToAdmin at 1. split; [by intros ->|]. intros user Hu.
  assert ((promoteToAdmin req db).1
          = {| users := save_user (promoted user) (users db);
               refreshTokens := refreshTokens db |}) as Heq.
  { unfold promoteToAdmin. by rewrite Hu. }
  assert (findOne (withId (params_userId req)) (save_user (promoted user) (users db))
          = Some (promoted user)) as Hfound.
  { apply (findOne_save_user_by _ user); [done|done|].
    by apply findOne_Some in Hu as [_ ?]. }
  rewrite Heq. cbn [users refreshTokens].
  split; [done|]. split; [done|]. split; [done|]. split; [done|]. split.
  - intros r Hr. unfold requireAdmin. rewrite Hr. cbn [users]. rewrite Hfound.
    cbn [role promoted isActive]. rewrite String.eqb_refl. cbn [negb].
    destruct (isActive user); by split.
  - unfold promoteToAdmin. cbn [users]. rewrite Hfound. cbn [fst users].
    unfold save_user. rewrite <- list_fmap_compose. apply list_fmap_ext.
    intros i d _. cbn. destruct (decide (user_id d = user_id user)) as [Hid|Hid].
    + by rewrite decide_True.
    + by rewrite decide_False.
Qed.

Lemma promoteToAdmin_grants_role_witness :
  requireAdmin (Sample.request None None) Sample.signed_up
  = Answered (reply 403 (Failure "Forbidden: Admin access required"))
  ∧ requireAdmin (Sample.request None None) Scenario.with_admin = Next.
Proof.
  destruct (promoteToAdmin_grants_role (Sample.request None None) Sample.signed_up)
    as [_ Hfound].
  destruct (Hfound Sample.alice eq_refl) as (_ & _ & _ & _ & Hadmin & _).
  split; [reflexivity|]. by apply (Hadmin (Sample.request None None) eq_refl).
Defined.

(** ** Listing the active sessions *)

#[local] Instance lastUsedDesc_transitive : Transitive lastUsedDesc.
Proof. intros a b c. unfold lastUsedDesc. lia. Qed.

#[local] Instance lastUsedDesc_total : Total lastUsedDesc.
Proof. intros a b. unfold lastUsedDesc. lia. Qed.

(** X16. getActiveSessions lists the caller's sessions that are unrevoked
    and not yet expired at [now], each of them once and no other,
    the most recently used first; right after logoutAllDevices the list
    is empty. *)
Theorem getActiveSessions_lists_active now req db uid :
  req_userId req = Some uid →
  (∃ listed,
     getActiveSessions now req db = reply 200 (Sessions (sessionView <$> listed))
     ∧ listed ≡ₚ activeTokens now uid (refreshTokens db)
     ∧ StronglySorted lastUsedDesc listed
     ∧ ∀ t, t ∈ listed
            ↔ t ∈ refreshTokens db ∧ userId t = uid ∧ isRevoked t = false
              ∧ now < expiresAt t)
  ∧ ∀ at_,
      getActiveSessions now req (logoutAllDevices at_ req db).1
      = reply 200 (Sessions []).
Proof.
  intros Hreq. split.
  - exists (merge_sort lastUsedDesc (activeTokens now uid (refreshTokens db))).
    unfold getActiveSessions. rewrite Hreq. split; [done|].
    split; [apply merge_sort_Permutation|].
    split; [by apply StronglySorted_merge_sort; apply _|].
    intros t. rewrite merge_sort_Permutation. unfold activeTokens.
    rewrite list_elem_of_filter. unfold activeOf.
    split; [by intros [(? & ? & ?) ?]|by intros (? & ? & ? & ?)].
  - intros at_. unfold getActiveSessions, logoutAllDevices. rewrite Hreq.
    cbn [fst with_tokens refreshTokens].
    rewrite filter_updateMany_nil; [done| |].
    + by intros d _ (_ & Hrev & _).
    + intros d Hnot (Hid & Hrev & _). by apply Hnot.
Qed.

Lemma getActiveSessions_lists_active_witness :
  session_id <$>
    match reply_json (getActiveSessions 3000 (Sample.request None None)
                        Sample.three_sessions) with
    | Sessions l => l
    | _ => []
    end
  = [3; 2; 1]%nat
  ∧ getActiveSessions 5000 (Sample.request None None)
      (logoutAllDevices 4000 (Sample.request None None) Sample.three_sessions).1
    = reply 200 (Sessions []).
Proof.
  destruct (getActiveSessions_lists_active 3000 (Sample.request None None)
              Sample.three_sessions 1%nat eq_refl) as [_ Hempty].
  destruct (getActiveSessions_lists_active 5000 (Sample.request None None)
              Sample.three_sessions 1%nat eq_refl) as [_ Hempty'].
  split; [reflexivity|apply Hempty'].
Defined.

(** ** Revocation and the anomaly detector *)

Lemma uniqueDevices_updateMany (P : RefreshToken → Prop) `{∀ x, Decision (P x)}
    at_ now uid coll :
  uniqueDevices now uid (updateMany P (set_revoked at_) coll) = uniqueDevices now uid coll.
Proof.
  unfold uniqueDevices, recentTokens, updateMany. f_equal.
  induction coll as [|d coll IH]; [done|].
  rewrite fmap_cons.
  assert (recentOf now uid (if decide (P d) then set_revoked at_ d else d)
          ↔ recentOf now uid d) as Hiff by (case_decide; [unfold recentOf; cbn|]; done).
  destruct (decide (recentOf now uid d)) as [Hd|Hd].
  - rewrite (filter_cons_True (recentOf now uid) _ _ (proj2 Hiff Hd)).
    rewrite (filter_cons_True (recentOf now uid) _ _ Hd).
    rewrite !fmap_cons, IH. f_equal. by case_decide.
  - rewrite (filter_cons_False (recentOf now uid) _ _ (λ H, Hd (proj1 Hiff H))).
    rewrite (filter_cons_False (recentOf now uid) _ _ Hd). exact IH.
Qed.

(** X17. Logging out from all devices clears the count of active sessions
    but not the record of recently used devices: on the database it
    leaves, the detector that sign-in consults fires exactly when more
    than 3 distinct device ids occur among the user's sessions created in
    the last 60 minutes, as counted before the logout. *)
Theorem logoutAllDevices_keeps_recent_devices now req db uid now' dev :
  req_userId req = Some uid →
  activeTokens now' uid (refreshTokens (logoutAllDevices now req db).1) = []
  ∧ uniqueDevices now' uid (refreshTokens (logoutAllDevices now req db).1)
    = uniqueDevices now' uid (refreshTokens db)
  ∧ detectSuspiciousActivity now' uid dev (refreshTokens (logoutAllDevices now req db).1)
    = bool_decide (3 < size (uniqueDevices now' uid (refreshTokens db)))%nat.
Proof.
  intros Hreq. unfold logoutAllDevices. rewrite Hreq.
  cbn [fst with_tokens refreshTokens].
  assert (activeTokens now' uid
            (updateMany (unrevokedOf uid) (set_revoked now) (refreshTokens db)) = [])
    as Hnone.
  { apply filter_updateMany_nil.
    - by intros d _ (_ & Hrev & _).
    - intros d Hnot (Hid & Hrev & _). by apply Hnot. }
  split; [exact Hnone|]. split; [apply uniqueDevices_updateMany|].
  unfold detectSuspiciousActivity. rewrite Hnone, uniqueDevices_updateMany.
  cbn [length]. rewrite bool_decide_eq_false_2 by lia. by case_bool_decide.
Qed.

Lemma logoutAllDevices_keeps_recent_devices_witness :
  detectSuspiciousActivity 7000 1%nat (getDeviceInfo (Sample.request None (Some "d1")))
    (refreshTokens (logoutAllDevices 6000 (Sample.request None None) Sample.five_devices).1)
  = true.
Proof.
  destruct (logoutAllDevices_keeps_recent_devices 6000 (Sample.request None None)
              Sample.five_devices 1%nat 7000
              (getDeviceInfo (Sample.request None (Some "d1"))) eq_refl)
    as (_ & _ & Hdetect).
  rewrite Hdetect. reflexivity.
Defined.

(** ** One unrevoked session per user and device *)

Lemma freshUserId_above coll u : u ∈ coll → (user_id u < freshUserId coll)%nat.
Proof.
  unfold freshUserId. intros Hin.
  assert (∀ (l : list nat) x, x ∈ l → (x ≤ foldr Nat.max 0 l)%nat) as Hmax.
  { induction l as [|a l IH]; intros x Hx; [by apply elem_of_nil in Hx|].
    apply elem_of_cons in Hx as [->|Hx]; cbn; [lia|]. specialize (IH x Hx). lia. }
  assert (user_id u ∈ user_id <$> coll) as Hid by (by apply list_elem_of_fmap_2).
  apply Hmax in Hid. lia.
Qed.

Lemma freshUserId_snoc coll u :
  (freshUserId coll ≤ freshUserId (coll ++ [u]))%nat.
Proof.
  unfold freshUserId. rewrite fmap_app.
  induction coll as [|a l IH]; [cbn [fmap list_fmap app foldr]; lia|].
  rewrite fmap_cons. cbn [app foldr]. lia.
Qed.

Lemma freshUserId_save_user doc coll user :
  user_id doc = user_id user →
  freshUserId (save_user doc coll) = freshUserId coll.
Proof.
  intros Hid. unfold freshUserId, save_user. do 2 f_equal.
  rewrite <- list_fmap_compose. apply list_fmap_ext. intros i d _. cbn.
  by case_decide.
Qed.

(** The directory never takes an id back. *)
Lemma handle_users newUser c now rnd req db :
  (freshUserId (users db) ≤ freshUserId (users (handle newUser c now rnd req db).1))%nat.
Proof.
  destruct c; cbn [handle].
  - unfold signUp. destruct (validationErrors req); [done|].
    destruct (findOne _ (users db)); [done|].
    destruct (create _ _ _ _ _ _ _); cbn [fst users]; apply freshUserId_snoc.
  - by rewrite signIn_users.
  - unfold refreshAccessToken.
    destruct (negb (truthy (body_refreshToken req))); [done|].
    destruct (findOne _ (refreshTokens db)) as [S|]; [|done].
    case_bool_decide; [done|].
    destruct (findOne _ (users db)) as [u|]; [|done].
    destruct (negb (isActive u)); [done|].
    destruct (create _ _ _ _ _ _ _); done.
  - unfold logout. by destruct (negb (truthy (body_refreshToken req))).
  - unfold logoutAllDevices. by destruct (req_userId req).
  - unfold revokeSession. destruct (req_userId req); [|done].
    by destruct (findOne _ (refreshTokens db)).
  - unfold toggleUserStatus. destruct (findOne _ (users db)) as [u|]; [|done].
    cbn [fst users]. by rewrite (freshUserId_save_user _ _ u).
Qed.

Lemma filter_onDevice_fmap_le uid dev (g : RefreshToken → RefreshToken) coll :
  (∀ d, d ∈ coll → g d = d ∨ isRevoked (g d) = true) →
  (length (filter (onDevice uid dev) (g <$> coll))
   ≤ length (filter (onDevice uid dev) coll))%nat.
Proof.
  induction coll as [|d coll IH]; intros Hg; [done|].
  rewrite fmap_cons.
  assert (∀ d', d' ∈ coll → g d' = d' ∨ isRevoked (g d') = true) as Hg'
    by (intros d' Hd'; apply Hg; by right).
  specialize (IH Hg').
  destruct (Hg d) as [->|Hrev]; [by left| |].
  - destruct (decide (onDevice uid dev d)).
    + rewrite !filter_cons_True by done. cbn. lia.
    + by rewrite !filter_cons_False.
  - rewrite filter_cons_False by (intros (_ & _ & ?); congruence).
    destruct (decide (onDevice uid dev d)).
    + rewrite filter_cons_True by done. cbn. lia.
    + by rewrite filter_cons_False.
Qed.

Lemma filter_nil_intro {A} (P : A → Prop) `{∀ x, Decision (P x)} (l : list A) :
  (∀ x, x ∈ l → ¬ P x) → filter P l = [].
Proof.
  induction l as [|x l IH]; intros Hl; [done|].
  rewrite filter_cons_False by (apply Hl; by left).
  apply IH. intros y Hy. apply Hl. by right.
Qed.

(** Writing back, revoked, the one unrevoked session of a user on a
    device leaves that user without unrevoked session on the device. *)
Lemma filter_onDevice_save coll S doc :
  one_per_device coll →
  S ∈ coll →
  isRevoked S = false →
  _id doc = _id S →
  isRevoked doc = true →
  filter (onDevice (userId S) (deviceId (deviceInfo S))) (save doc coll) = [].
Proof.
  intros Hone HS Hunrev Hid Hrev. apply filter_nil_intro.
  intros x Hx HP. unfold save in Hx. apply list_elem_of_fmap in Hx as (d & -> & Hd).
  case_decide as Hdid; [destruct HP as (_ & _ & ?); congruence|].
  assert (d ∈ filter (onDevice (userId S) (deviceId (deviceInfo S))) coll) as Hdf
    by (by apply list_elem_of_filter).
  assert (S ∈ filter (onDevice (userId S) (deviceId (deviceInfo S))) coll) as HSf
    by (by apply list_elem_of_filter).
  specialize (Hone (userId S) (deviceId (deviceInfo S))).
  destruct (filter _ coll) as [|a [|b l]]; [by apply elem_of_nil in Hdf| |cbn in Hone; lia].
  apply list_elem_of_singleton in Hdf, HSf. congruence.
Qed.

(** A handler creates a session only for a user and device that are left
    without unrevoked session, and for a user of the directory. *)
Lemma handle_creates_alone newUser c now rnd req db pre N :
  (∀ oid e p n, user_id (newUser oid e p n) = oid) →
  owners_known db →
  one_per_device (refreshTokens db) →
  refreshTokens (handle newUser c now rnd req db).1 = pre ++ [N] →
  length pre = length (refreshTokens db) →
  filter (onDevice (userId N) (deviceId (deviceInfo N))) pre = []
  ∧ (userId N < freshUserId (users (handle newUser c now rnd req db).1))%nat.
Proof.
  intros Hnew Hown Hone Heq Hlen.
  assert (∀ coll : list RefreshToken,
            length coll = length (refreshTokens db) → coll ≠ pre ++ [N]) as Hsame.
  { intros coll Hl ->. rewrite length_app in Hl. cbn in Hl. lia. }
  destruct c; cbn [handle] in *.
  - revert Heq. unfold signUp. destruct (validationErrors req); [by intros ?%Hsame|].
    destruct (findOne _ (users db)); [by intros ?%Hsame|].
    destruct (create _ _ _ _ _ _ _) as [coll'|] eqn:Hc; cbn [fst refreshTokens users];
      [|by intros ?%Hsame].
    apply create_Some in Hc as [-> _]. intros Heq.
    apply app_inj_tail in Heq as [<- <-]. cbn [userId newRefreshToken]. rewrite Hnew.
    split.
    + apply filter_nil_intro. intros x Hx (Hu & _). apply Hown in Hx. lia.
    + pose proof (freshUserId_above
                    (users db ++ [newUser (freshUserId (users db)) (body_email req)
                                    (body_password req) (body_name req)])
                    (newUser (freshUserId (users db)) (body_email req)
                       (body_password req) (body_name req))) as Habove.
      rewrite Hnew in Habove. apply Habove.
      apply elem_of_app. right. by apply list_elem_of_singleton.
  - destruct (decide (status (signIn now rnd req db).2 = 200%nat)) as [Hok|Hnok].
    + destruct (signIn_success _ _ _ _ Hok) as (u & Hu & _ & _ & H). cbv zeta in H.
      destruct H as [_ Hs]. rewrite Hs in Heq |- *. cbn [fst refreshTokens users] in *.
      apply app_inj_tail in Heq as [<- <-]. cbn [userId deviceInfo newRefreshToken].
      split.
      * apply filter_updateMany_nil; [by intros d _ (_ & _ & ?)|done].
      * apply freshUserId_above. by apply findOne_Some in Hu as [? _].
    + exfalso. revert Heq Hnok. unfold signIn.
      destruct (validationErrors req); [by intros ?%Hsame|].
      destruct (findOne _ (users db)) as [u|]; [|by intros ?%Hsame].
      destruct (negb (isActive u)); [by intros ?%Hsame|].
      destruct (negb (comparePassword u _)); [by intros ?%Hsame|].
      destruct (create _ _ _ _ _ _ _); cbn [fst snd with_tokens refreshTokens status respond];
        [done|].
      intros Heq _. apply (Hsame _ (updateMany_length _ _ _) Heq).
  - destruct (decide (status (refreshAccessToken now rnd req db).2 = 200%nat))
      as [Hok|Hnok].
    + destruct (refresh_success _ _ _ _ Hok) as (S & u & _ & HS & _ & _ & _ & H).
      cbv zeta in H. destruct H as [_ Hs]. rewrite Hs in Heq |- *.
      cbn [fst refreshTokens users] in *.
      apply app_inj_tail in Heq as [<- <-].
      cbn [userId deviceInfo newRefreshToken mark_replaced touch].
      apply findOne_Some in HS as [HSin [_ Hunrev]]. split.
      * by apply filter_onDevice_save.
      * by apply Hown.
    + exfalso. revert Heq Hnok. unfold refreshAccessToken.
      destruct (negb (truthy (body_refreshToken req))); [by intros ?%Hsame|].
      destruct (findOne _ (refreshTokens db)) as [S|]; [|by intros ?%Hsame].
      case_bool_decide; [by intros ?%Hsame|].
      destruct (findOne _ (users db)) as [u|]; [|by intros ?%Hsame].
      destruct (negb (isActive u)); [by intros ?%Hsame|].
      destruct (create _ _ _ _ _ _ _); cbn [fst snd with_tokens refreshTokens status respond];
        [done|].
      intros Heq _. refine (Hsame _ _ Heq). unfold save. by rewrite length_fmap.
  - exfalso. revert Heq. unfold logout.
    destruct (negb (truthy (body_refreshToken req))); [by intros ?%Hsame|].
    cbn [fst with_tokens refreshTokens].
    destruct (findOne _ (refreshTokens db)); [|by intros ?%Hsame].
    intros Heq. refine (Hsame _ _ Heq). unfold save. by rewrite length_fmap.
  - exfalso. revert Heq. unfold logoutAllDevices.
    destruct (req_userId req); [|by intros ?%Hsame].
    cbn [fst with_tokens refreshTokens]. intros Heq.
    apply (Hsame _ (updateMany_length _ _ _) Heq).
  - exfalso. revert Heq. unfold revokeSession.
    destruct (req_userId req); [|by intros ?%Hsame].
    destruct (findOne _ (refreshTokens db)); [|by intros ?%Hsame].
    cbn [fst with_tokens refreshTokens]. intros Heq.
    refine (Hsame _ _ Heq). unfold save. by rewrite length_fmap.
  - exfalso. revert Heq. unfold toggleUserStatus.
    destruct (findOne _ (users db)) as [u|]; [|by intros ?%Hsame].
    cbn [fst refreshTokens].
    destruct (negb (isActive (toggled u))); [|by intros ?%Hsame].
    intros Heq. apply (Hsame _ (updateMany_length _ _ _) Heq).
Qed.

Lemma reachable_one_per_device newUser db :
  (∀ oid e p n, user_id (newUser oid e p n) = oid) →
  reachable newUser db →
  owners_known db ∧ one_per_device (refreshTokens db).
Proof.
  intros Hnew.
  induction 1 as [us|c now rnd req db Hreach [IHown IHone]].
  { split; [intros t Ht; by apply elem_of_nil in Ht|intros uid dev; cbn; lia]. }
  destruct (reachable_invariant _ _ Hreach) as [Hnd _].
  destruct (handle_shape newUser c now rnd req db Hnd) as (g & news & Heq & Hg & Hnews).
  pose proof (handle_users newUser c now rnd req db) as Hus.
  assert (∀ d, d ∈ refreshTokens db → g d = d ∨ isRevoked (g d) = true) as Hg'.
  { intros d Hd. destruct (Hg d Hd) as [?|(_ & _ & _ & _ & _ & _ & ? & _)]; auto. }
  assert (∀ t, t ∈ g <$> refreshTokens db →
               (userId t < freshUserId (users (handle newUser c now rnd req db).1))%nat)
    as Hkept.
  { intros t (d & -> & Hd)%list_elem_of_fmap. specialize (IHown d Hd).
    destruct (Hg d Hd) as [->|(_ & -> & _)]; lia. }
  destruct Hnews as [->|(uid' & dev' & sec' & Hc)].
  - rewrite app_nil_r in Heq. split.
    + intros t Ht. rewrite Heq in Ht. by apply Hkept.
    + intros uid dev. rewrite Heq.
      etrans; [by apply filter_onDevice_fmap_le|apply IHone].
  - apply create_Some in Hc as [Hnews _]. apply app_inv_head in Hnews as Hnews'.
    rewrite Hnews' in Heq.
    match type of Heq with _ = _ ++ [?doc] => set (N := doc) in * end.
    destruct (handle_creates_alone newUser c now rnd req db (g <$> refreshTokens db) N
                Hnew IHown IHone Heq) as [Halone HN]; [by rewrite length_fmap|].
    split.
    + intros t Ht. rewrite Heq in Ht. apply elem_of_app in Ht as [Ht|Ht]; [by apply Hkept|].
      by apply list_elem_of_singleton in Ht as ->.
    + intros uid dev. rewrite Heq, filter_app, length_app.
      destruct (decide (onDevice uid dev N)) as [(Hu & Hd & _)|Hno].
      * rewrite <- Hu, <- Hd, Halone. by rewrite filter_cons_True.
      * rewrite (filter_cons_False _ _ _ Hno), filter_nil. cbn [length].
        rewrite Nat.add_0_r.
        etrans; [by apply filter_onDevice_fmap_le|apply IHone].
Qed.

Lemma filter_activeOn_le at_ uid dev coll :
  (length (filter (activeOn at_ uid dev) coll)
   ≤ length (filter (onDevice uid dev) coll))%nat.
Proof.
  induction coll as [|d coll IH]; [done|].
  destruct (decide (activeOn at_ uid dev d)) as [Ha|Ha].
  - assert (onDevice uid dev d) as Hd by (destruct Ha as [(? & ? & _) ?]; by repeat split).
    rewrite (filter_cons_True (activeOn at_ uid dev)) by done.
    rewrite (filter_cons_True (onDevice uid dev)) by done.
    cbn [length]. lia.
  - rewrite (filter_cons_False (activeOn at_ uid dev)) by done.
    destruct (decide (onDevice uid dev d)).
    + rewrite (filter_cons_True (onDevice uid dev)) by done. cbn [length]. lia.
    + by rewrite (filter_cons_False (onDevice uid dev)).
Qed.

(** X18. With requests handled one after the other, a user never has two
    unrevoked sessions on the same device: in every database the handlers
    produce from one without sessions (the User model giving a new user
    the id the store hands out), at most one unrevoked session exists per
    user and device id, hence at most one active one. *)
Theorem reachable_one_session_per_device newUser db :
  (∀ oid e p n, user_id (newUser oid e p n) = oid) →
  reachable newUser db →
  ∀ uid dev at_,
    (length (filter (onDevice uid dev) (refreshTokens db)) ≤ 1)%nat
    ∧ (length (filter (activeOn at_ uid dev) (refreshTokens db)) ≤ 1)%nat.
Proof.
  intros Hnew Hreach uid dev at_.
  destruct (reachable_one_per_device _ _ Hnew Hreach) as [_ Hone].
  split; [apply Hone|].
  etrans; [apply filter_activeOn_le|apply Hone].
Qed.

Lemma reachable_one_session_per_device_witness :
  (length (filter (onDevice 1%nat "d1") (refreshTokens Sample.three_sessions)) ≤ 1)%nat.
Proof.
  apply (reachable_one_session_per_device Sample.newUser Sample.three_sessions
           (λ _ _ _ _, eq_refl)).
  - do 2 apply (reachable_call Sample.newUser CallSignIn).
    apply (reachable_call Sample.newUser CallSignUp 0 "s1"
             (Sample.request None (Some "d1")) {| users := []; refreshTokens := [] |}).
    apply reachable_init.
  - exact 0.
Defined.

(** ** Rejected sign-ins *)

(** X19. A sign-in that is refused changes nothing: whenever signIn
    answers neither 200 nor 500 the database is as before, so a wrong
    password, an unknown email or a deactivated account never revokes a
    session; the answer is 401 "User Not Found" for an unknown email, 403
    for a deactivated account whatever the password, and 401 "Password is
    Wrong" otherwise. *)
Theorem signIn_rejected_changes_nothing now rnd req db :
  (status (signIn now rnd req db).2 ≠ 200%nat →
   status (signIn now rnd req db).2 ≠ 500%nat →
   (signIn now rnd req db).1 = db)
  ∧ (validationErrors req = false →
     (findOne (withEmail (body_email req)) (users db) = None →
      signIn now rnd req db
      = (db, respond 401 (Error "Invalid credentials - User Not Found")))
     ∧ ∀ u,
         findOne (withEmail (body_email req)) (users db) = Some u →
         (isActive u = false →
          signIn now rnd req db = (db, respond 403 (Error "Account is deactivated")))
         ∧ (isActive u = true → comparePassword u (body_password req) = false →
            signIn now rnd req db
            = (db, respond 401 (Error "Invalid credentials - Password is Wrong")))).
Proof.
  split.
  - unfold signIn. destruct (validationErrors req); [done|].
    destruct (findOne _ (users db)) as [u|]; [|done].
    destruct (negb (isActive u)); [done|].
    destruct (negb (comparePassword u _)); [done|].
    destruct (create _ _ _ _ _ _ _); cbn [fst snd status respond]; done.
  - intros Hval. unfold signIn. rewrite Hval. split; [by intros ->|].
    intros u ->. split; [by intros ->|]. by intros -> ->.
Qed.

Lemma signIn_rejected_changes_nothing_witness :
  signIn 1000 "t2" (Scenario.request_of None 0 0 None) Sample.signed_up
  = (Sample.signed_up, respond 401 (Error "Invalid credentials - User Not Found")).
Proof.
  destruct (signIn_rejected_changes_nothing 1000 "t2" (Scenario.request_of None 0 0 None)
              Sample.signed_up) as [_ Hwhy].
  destruct (Hwhy eq_refl) as [Hunknown _]. by apply Hunknown.
Defined.

(** ** Users of few devices *)

Lemma filter_length_pos {A} (P : A → Prop) `{∀ x, Decision (P x)} (l : list A) (x : A) :
  x ∈ l → P x → (1 ≤ length (filter P l))%nat.
Proof.
  intros Hx HP.
  assert (x ∈ filter P l) as Hin by (by apply list_elem_of_filter).
  destruct (filter P l); [by apply elem_of_nil in Hin|cbn; lia].
Qed.

Lemma active_devices_NoDup now uid coll :
  one_per_device coll →
  NoDup ((λ t, deviceId (deviceInfo t)) <$> activeTokens now uid coll).
Proof.
  unfold activeTokens. induction coll as [|d coll IH]; intros Hone; [constructor|].
  assert (one_per_device coll) as Hone'.
  { intros u dv. specialize (Hone u dv).
    destruct (decide (onDevice u dv d)).
    - rewrite filter_cons_True in Hone by done. cbn in Hone. lia.
    - by rewrite filter_cons_False in Hone. }
  destruct (decide (activeOf now uid d)) as [Ha|Ha].
  - rewrite filter_cons_True by done. rewrite fmap_cons. apply NoDup_cons.
    split; [|by apply IH].
    intros (t & Hdev & Ht)%list_elem_of_fmap.
    apply list_elem_of_filter in Ht as [(Hu & Hrev & _) Ht].
    destruct Ha as (Hu' & Hrev' & _).
    specialize (Hone uid (deviceId (deviceInfo d))).
    rewrite filter_cons_True in Hone by done. cbn in Hone.
    assert (1 ≤ length (filter (onDevice uid (deviceId (deviceInfo d))) coll))%nat
      by (by apply (filter_length_pos _ _ t)).
    lia.
  - rewrite filter_cons_False by done. by apply IH.
Qed.

(** X20. With requests handled one after the other, a user who has only
    ever used at most 3 devices is never flagged: in every database the
    handlers produce, each request run to its end before the next, from
    one without sessions, if all sessions of a user carry device ids from
    a set of at most 3, the detector answers false for that user, the
    active sessions being no more than the devices.  Two refresh requests
    in flight at once are outside this: they leave two active sessions on
    one device ([refresh_race_two_active_on_one_device]). *)
Theorem few_devices_never_flagged newUser db now uid dev (devices : gset string) :
  (∀ oid e p n, user_id (newUser oid e p n) = oid) →
  reachable newUser db →
  (∀ t, t ∈ refreshTokens db → userId t = uid → deviceId (deviceInfo t) ∈ devices) →
  (size devices ≤ 3)%nat →
  (length (activeTokens now uid (refreshTokens db)) ≤ size devices)%nat
  ∧ detectSuspiciousActivity now uid dev (refreshTokens db) = false.
Proof.
  intros Hnew Hreach Hdev Hsize.
  destruct (reachable_one_per_device _ _ Hnew Hreach) as [_ Hone].
  assert (length (activeTokens now uid (refreshTokens db)) ≤ size devices)%nat as Hactive.
  { rewrite <- (length_fmap (λ t, deviceId (deviceInfo t))).
    rewrite <- (size_list_to_set (C := gset string)) by (by apply active_devices_NoDup).
    apply subseteq_size. intros x (t & -> & Ht)%elem_of_list_to_set%list_elem_of_fmap.
    apply list_elem_of_filter in Ht as [(Hu & _) Ht]. by apply Hdev. }
  assert (size (uniqueDevices now uid (refreshTokens db)) ≤ size devices)%nat as Hrecent.
  { apply subseteq_size. unfold uniqueDevices, recentTokens.
    intros x (t & -> & Ht)%elem_of_list_to_set%list_elem_of_fmap.
    apply list_elem_of_filter in Ht as [(Hu & _) Ht]. by apply Hdev. }
  split; [exact Hactive|].
  unfold detectSuspiciousActivity. rewrite !bool_decide_eq_false_2 by lia. done.
Qed.

Lemma few_devices_never_flagged_witness :
  detectSuspiciousActivity 3000 1%nat (getDeviceInfo (Sample.request None (Some "d1")))
    (refreshTokens Sample.three_sessions)
  = false.
Proof.
  apply (few_devices_never_flagged Sample.newUser Sample.three_sessions 3000 1%nat
           (getDeviceInfo (Sample.request None (Some "d1"))) {["d1"; "d2"; "d3"]}
           (λ _ _ _ _, eq_refl)).
  - do 2 apply (reachable_call Sample.newUser CallSignIn).
    apply (reachable_call Sample.newUser CallSignUp 0 "s1"
             (Sample.request None (Some "d1")) {| users := []; refreshTokens := [] |}).
    apply reachable_init.
  - intros t Ht _. vm_compute in Ht.
    apply elem_of_cons in Ht as [->|Ht]; [apply (bool_decide_unpack _); exact I|].
    apply elem_of_cons in Ht as [->|Ht]; [apply (bool_decide_unpack _); exact I|].
    apply elem_of_cons in Ht as [->|Ht]; [apply (bool_decide_unpack _); exact I|].
    by apply elem_of_nil in Ht.
  - apply (bool_decide_unpack _). exact I.
Defined.

(** Without the sequential handling the bound on active sessions is lost:
    after two refresh requests with alternating store operations, alice,
    who has only ever used device d1, has two active sessions there. *)
Example refresh_race_two_active_on_one_device :
  let sched := [First; Second; First; Second; First; Second; First; Second] in
  let '(db', _, _) :=
    interleave sched Sample.client1 Sample.client2 Sample.signed_up
      AtFindToken AtFindToken in
  deviceId ∘ deviceInfo <$> refreshTokens db' = ["d1"; "d1"; "d1"]
  ∧ length (activeTokens 2000 1%nat (refreshTokens db')) = 2%nat
  ∧ length (filter (onDevice 1%nat "d1") (refreshTokens db')) = 2%nat.
Proof. vm_compute. repeat split; done. Qed.
